(** * auto_note_server: the request pipeline of the transcription backend

    A shallow embedding of the Go sources of
    github.com/victorbratov/auto_note_server: the sanitizer, the route
    handlers with their inline session check, the transcription client
    and the chat-completion client.

    The sources hold three revisions of main.go that transcribe:
    src/main.go (POST /upload, no session check), src/unnamed/part_001
    (POST /transcribe behind the Clerk session check) and the main.go
    carried by src/go.mod (the same with POST /summarize, and with the
    transcription options set).  They are modules [Rev2], [Rev3] and
    [Rev4] below, each function under the name it has in its file.

    Go strings are byte sequences: they are modelled as [string], one
    [ascii] per byte.  Code that lives outside the repository (net/http,
    os, io, fmt on composite values, encoding/json, the Clerk and
    AssemblyAI SDKs) is modelled at the call sites the handlers use, the
    outcomes of what leaves the process supplied by a [World].  A
    function that returns [(T, error)] returns [error + T] here. *)

From Stdlib Require Import String Ascii ZArith Lia List Bool.
From stdpp Require Import base option strings gmap pretty.

Local Open Scope string_scope.

(** ** Bytes *)

Definition byte_of (n : nat) : ascii := ascii_of_nat n.

Definition bs : ascii := "\"%char.            (* backslash, 0x5C *)
Definition dq : ascii := byte_of 34.          (* double quote, 0x22 *)
Definition nl : ascii := byte_of 10.          (* \n *)
Definition tab : ascii := byte_of 9.          (* \t *)
Definition cr : ascii := byte_of 13.          (* \r *)
Definition ff : ascii := byte_of 12.          (* \f *)

Definition str1 (c : ascii) : string := String c "".

(** ** package strings, package regexp *)

(** [strings.ReplaceAll(s, old, new)] for a one-byte [old], the only way
    the sources call it: every occurrence of the byte is replaced, left
    to right, and the replacement text is not rescanned. *)
Fixpoint ReplaceAll (s : string) (old : ascii) (new : string) : string :=
  match s with
  | "" => ""
  | String c s' =>
      if Ascii.eqb c old then new +:+ ReplaceAll s' old new
      else String c (ReplaceAll s' old new)
  end.

(** A regular expression that is one character class, given as the list
    of its inclusive ranges.  The class of the sources only has code
    points below U+0020; those are one byte each in UTF-8 and never
    occur inside a longer sequence, so matching bytes is matching
    runes. *)
Definition CharClass := list (nat * nat).

Definition class_match (re : CharClass) (c : ascii) : bool :=
  existsb (fun r => (fst r <=? nat_of_ascii c)%nat && (nat_of_ascii c <=? snd r)%nat) re.

(** [re.ReplaceAllString(src, repl)] for such a class and a replacement
    without [$]: every matching byte becomes [repl]. *)
Fixpoint ReplaceAllString (re : CharClass) (src repl : string) : string :=
  match src with
  | "" => ""
  | String c s' =>
      if class_match re c then repl +:+ ReplaceAllString re s' repl
      else String c (ReplaceAllString re s' repl)
  end.

(** ** sanitizeInput *)

(** [[\x00-\x08\x0B\x0C\x0E-\x1F]] *)
Definition control_class : CharClass :=
  [(0, 8); (11, 11); (12, 12); (14, 31)]%nat.

Definition sanitizeInput (input : string) : string :=
  let input := ReplaceAll input bs (String bs (String bs "")) in
  let input := ReplaceAll input nl (String bs "n") in
  let input := ReplaceAll input tab (String bs "t") in
  let input := ReplaceAll input cr (String bs "r") in
  let input := ReplaceAll input ff (String bs "f") in
  let re := control_class in
  ReplaceAllString re input "".

(** ** JSON text (RFC 8259), as a reader of the responses sees it *)

Definition is_hex (c : ascii) : bool :=
  let n := nat_of_ascii c in
  ((48 <=? n) && (n <=? 57) || (65 <=? n) && (n <=? 70) || (97 <=? n) && (n <=? 102))%nat.

Definition is_simple_escape (c : ascii) : bool :=
  existsb (Ascii.eqb c) [dq; bs; "/"; "b"; "f"; "n"; "r"; "t"]%char.

(** The characters allowed between the two quotes of a string literal:
    anything from U+0020 up except the quote and the backslash, or a
    backslash followed by a quote, a backslash, a slash or one of
    [b f n r t], or by [u] and four hex digits. *)
Fixpoint json_string_content (s : string) : bool :=
  match s with
  | "" => true
  | String c r =>
      if Ascii.eqb c dq then false
      else if Ascii.eqb c bs then
        match r with
        | "" => false
        | String e r' =>
            if is_simple_escape e then json_string_content r'
            else if Ascii.eqb e "u" then
              match r' with
              | String h1 (String h2 (String h3 (String h4 r''))) =>
                  is_hex h1 && is_hex h2 && is_hex h3 && is_hex h4
                  && json_string_content r''
              | _ => false
              end
            else false
        end
      else if (nat_of_ascii c <? 32)%nat then false
      else json_string_content r
  end.

(** Go literals hold double quotes; here they are written with an
    apostrophe in their place (no literal of the sources has one) and
    [lit] puts the quotes back. *)
Definition lit (s : string) : string := ReplaceAll s "'" (str1 dq).

Definition hex_val (c : ascii) : N :=
  let n := N_of_ascii c in
  if (n <=? 57)%N then (n - 48)%N
  else if (n <=? 70)%N then (n - 55)%N else (n - 87)%N.

Definition hex4 (h1 h2 h3 h4 : ascii) : N :=
  (((hex_val h1 * 16 + hex_val h2) * 16 + hex_val h3) * 16 + hex_val h4)%N.

Definition byteN (n : N) : ascii := ascii_of_N n.

Definition utf8 (cp : N) : string :=
  if (cp <? 128)%N then str1 (byteN cp)
  else if (cp <? 2048)%N then
    String (byteN (192 + cp / 64)) (str1 (byteN (128 + cp mod 64)))
  else if (cp <? 65536)%N then
    String (byteN (224 + cp / 4096))
      (String (byteN (128 + (cp / 64) mod 64)) (str1 (byteN (128 + cp mod 64))))
  else
    String (byteN (240 + cp / 262144))
      (String (byteN (128 + (cp / 4096) mod 64))
         (String (byteN (128 + (cp / 64) mod 64)) (str1 (byteN (128 + cp mod 64))))).

Definition simple_escape (e : ascii) : option ascii :=
  if Ascii.eqb e dq then Some dq
  else if Ascii.eqb e bs then Some bs
  else if Ascii.eqb e "/" then Some "/"%char
  else if Ascii.eqb e "b" then Some (byte_of 8)
  else if Ascii.eqb e "f" then Some ff
  else if Ascii.eqb e "n" then Some nl
  else if Ascii.eqb e "r" then Some cr
  else if Ascii.eqb e "t" then Some tab
  else None.

Definition is_high_surrogate (u : N) : bool := ((55296 <=? u) && (u <=? 56319))%N.
Definition is_low_surrogate (u : N) : bool := ((56320 <=? u) && (u <=? 57343))%N.

(** Reads a string literal whose opening quote has been consumed: the
    text it denotes and what follows its closing quote. *)
Fixpoint json_read_string (s : string) : option (string * string) :=
  match s with
  | "" => None
  | String c r =>
      if Ascii.eqb c dq then Some ("", r)
      else if Ascii.eqb c bs then
        match r with
        | "" => None
        | String e r' =>
            match simple_escape e with
            | Some d =>
                match json_read_string r' with
                | Some (v, rest) => Some (String d v, rest)
                | None => None
                end
            | None =>
                if Ascii.eqb e "u" then
                  match r' with
                  | String h1 (String h2 (String h3 (String h4 r''))) =>
                      if is_hex h1 && is_hex h2 && is_hex h3 && is_hex h4 then
                        let u := hex4 h1 h2 h3 h4 in
                        let single :=
                          match json_read_string r'' with
                          | Some (v, rest) =>
                              Some ((if is_high_surrogate u || is_low_surrogate u
                                     then utf8 65533 else utf8 u) +:+ v, rest)
                          | None => None
                          end in
                        match r'' with
                        | String b2 (String u2 (String k1 (String k2 (String k3 (String k4 r3))))) =>
                            if is_high_surrogate u && Ascii.eqb b2 bs && Ascii.eqb u2 "u"
                               && is_hex k1 && is_hex k2 && is_hex k3 && is_hex k4
                               && is_low_surrogate (hex4 k1 k2 k3 k4)
                            then
                              match json_read_string r3 with
                              | Some (v, rest) =>
                                  Some (utf8 (65536 + (u - 55296) * 1024
                                              + (hex4 k1 k2 k3 k4 - 56320)) +:+ v, rest)
                              | None => None
                              end
                            else single
                        | _ => single
                        end
                      else None
                  | _ => None
                  end
                else None
            end
        end
      else if (nat_of_ascii c <? 32)%nat then None
      else
        match json_read_string r with
        | Some (v, rest) => Some (String c v, rest)
        | None => None
        end
  end.

Definition is_ws (c : ascii) : bool :=
  existsb (Ascii.eqb c) [" "%char; tab; nl; cr].

Fixpoint skip_ws (s : string) : string :=
  match s with
  | String c r => if is_ws c then skip_ws r else s
  | "" => ""
  end.

Definition expect (c : ascii) (s : string) : option string :=
  match skip_ws s with
  | String d r => if Ascii.eqb c d then Some r else None
  | "" => None
  end.

(** One member [ws string ws : ws string] of an object whose values are
    strings. *)
Definition json_member (s : string) : option ((string * string) * string) :=
  s ← expect dq s;
  '(k, s) ← json_read_string s;
  s ← expect ":" s;
  s ← expect dq s;
  '(v, s) ← json_read_string s;
  Some ((k, v), s).

Fixpoint json_members (fuel : nat) (s : string) : option (list (string * string) * string) :=
  match fuel with
  | O => None
  | S fuel =>
      '(kv, s) ← json_member s;
      match skip_ws s with
      | String c r =>
          if Ascii.eqb c "," then
            '(kvs, rest) ← json_members fuel r; Some (kv :: kvs, rest)
          else if Ascii.eqb c "}" then Some ([kv], r)
          else None
      | "" => None
      end
  end.

(** A whole JSON text that is one object all of whose members are
    strings, the shape of every JSON body the handlers write: its
    members, in order.  Anything else reads as [None]. *)
Definition json_flat_object (doc : string) : option (list (string * string)) :=
  s ← expect "{" doc;
  match skip_ws s with
  | String "}" r => if skip_ws r is "" then Some [] else None
  | _ =>
      '(kvs, rest) ← json_members (String.length doc) s;
      if skip_ws rest is "" then Some kvs else None
  end.

(** The value of member [k]; of several members of that name the last
    one counts, as for encoding/json. *)
Definition json_field (k : string) (o : list (string * string)) : option string :=
  match list_find (fun kv => String.eqb kv.1 k) (reverse o) with
  | Some (_, kv) => Some kv.2
  | None => None
  end.

(** ** Values of the Go libraries the handlers touch *)

(** A non-nil [error], seen through its [Error()] text. *)
Definition error := string.

Record SessionClaims := { Subject : string }.
Record User := { ID : string; Banned : bool }.
Record FileHeader := { Filename : string; Size : Z }.
Record Part := { part_name : string; part_header : FileHeader; part_content : string }.
Definition Header := list (string * list string).

(** An inbound [*http.Request]: the session claims the Clerk middleware
    left in its context (if any), its header, its multipart form (or why
    it does not parse) and its raw body. *)
Record Request := {
  ctx_claims : option SessionClaims;
  RHeader : Header;
  multipart : error + list Part;
  Body : string
}.

(** The [*bool] fields of [aai.TranscriptOptionalParams] the sources set;
    [None] is the nil pointer, an option left out of the request. *)
Record TranscriptOptionalParams := {
  Punctuate : option bool;
  FormatText : option bool
}.

(** [aai.Transcript]; [Text] is a [*string]. *)
Record Transcript := { Text : option string }.

Record ClientRequest := {
  Method : string;
  URL : string;
  ReqHeader : gmap string string;
  ReqBody : string
}.

Record Message := { role : string; content : string }.
Record Payload := { model : string; messages : list Message }.

(** One element of [result.Choices], through [Message.Content]. *)
Record Choice := { Content : string }.

(** An open [*os.File], [multipart.File] or response body. *)
Record File := { fd : nat; Name : string }.
Record Response := { StatusCode : Z; RespBody : File }.

(** What an open descriptor reads from. *)
Inductive Stream :=
| OnDisk (path : string)
| InMemory (data : string)
| Network (data : error + string).

Record ResponseWriter := {
  w_header : gmap string string;      (* w.Header() *)
  w_status : option Z;                (* the status line, once written *)
  w_sent : gmap string string;        (* w.Header() as it was at WriteHeader *)
  w_body : string
}.

Inductive Event :=
| EvUserGet (subject : string)
| EvFormFile (key : string)
| EvCreateTemp (dir pattern : string)
| EvCopy (dst : string) (n : nat)
| EvOpen (name : string)
| EvClose (d : nat)
| EvTranscribe (key audio : string) (params : TranscriptOptionalParams)
| EvHTTP (req : ClientRequest)
| EvReadAll (d : nat).

(** Everything outside the program: the outcomes of the calls that leave
    the process and the library renderings of composite values. *)
Record World := {
  user_Get : string -> error + User;
  os_CreateTemp : string -> string -> error + string;
  io_Copy_fault : option (nat * error);
  aai_TranscribeFromReader :
    string -> string -> TranscriptOptionalParams -> error + Transcript;
  http_Do : ClientRequest -> error + (Z * (error + string));
  json_Marshal : Payload -> error + string;
  json_Unmarshal : string -> error + list Choice;
  json_Decode : string -> error + option string;
  fmt_v_Header : Header -> string;
  fmt_v_ClientRequest : ClientRequest -> string;
  fmt_s_ReadCloser : File -> string
}.

(** ** The state of one request *)

Record St := {
  w : ResponseWriter;
  stdout : list string;
  files : gmap string string;         (* the disk: path to content *)
  fds : gmap nat Stream;              (* the open descriptors *)
  next_fd : nat;
  trace : list Event;
  deferred : list File                (* the frame's deferred Close calls, last first *)
}.

Definition set_w (f : ResponseWriter -> ResponseWriter) (s : St) : St :=
  {| w := f (w s); stdout := stdout s; files := files s; fds := fds s;
     next_fd := next_fd s; trace := trace s; deferred := deferred s |}.
Definition set_stdout (f : list string -> list string) (s : St) : St :=
  {| w := w s; stdout := f (stdout s); files := files s; fds := fds s;
     next_fd := next_fd s; trace := trace s; deferred := deferred s |}.
Definition set_files (f : gmap string string -> gmap string string) (s : St) : St :=
  {| w := w s; stdout := stdout s; files := f (files s); fds := fds s;
     next_fd := next_fd s; trace := trace s; deferred := deferred s |}.
Definition set_fds (f : gmap nat Stream -> gmap nat Stream) (s : St) : St :=
  {| w := w s; stdout := stdout s; files := files s; fds := f (fds s);
     next_fd := next_fd s; trace := trace s; deferred := deferred s |}.
Definition set_next_fd (f : nat -> nat) (s : St) : St :=
  {| w := w s; stdout := stdout s; files := files s; fds := fds s;
     next_fd := f (next_fd s); trace := trace s; deferred := deferred s |}.
Definition set_deferred (f : list File -> list File) (s : St) : St :=
  {| w := w s; stdout := stdout s; files := files s; fds := fds s;
     next_fd := next_fd s; trace := trace s; deferred := f (deferred s) |}.
Definition emit (e : Event) (s : St) : St :=
  {| w := w s; stdout := stdout s; files := files s; fds := fds s;
     next_fd := next_fd s; trace := (trace s ++ [e])%list; deferred := deferred s |}.

(** ** Statements: state, early return and panic *)

Inductive Completion (R A : Type) : Type :=
| Next (a : A)
| Return (r : R)
| Panic (msg : string).
Arguments Next {R A} a.
Arguments Return {R A} r.
Arguments Panic {R A} msg.

Definition Go (R A : Type) : Type := St -> Completion R A * St.

Definition value {R A} (a : A) : Go R A := fun s => (Next a, s).
Definition return_ {R A} (r : R) : Go R A := fun s => (Return r, s).
Definition panic {R A} (msg : string) : Go R A := fun s => (Panic msg, s).
Definition modify {R} (f : St -> St) : Go R unit := fun s => (Next tt, f s).

(** How a statement's completion meets what follows it. *)
Definition bind_after {R A B} (res : Completion R A * St) (k : A -> Go R B)
    : Completion R B * St :=
  match res with
  | (Next a, s') => k a s'
  | (Return r, s') => (Return r, s')
  | (Panic msg, s') => (Panic msg, s')
  end.

Definition bind {R A B} (m : Go R A) (k : A -> Go R B) : Go R B :=
  fun s => bind_after (m s) k.

Notation "'let*' x ':=' m 'in' k" := (bind m (fun x => k))
  (at level 10, x pattern, m at level 100, k at level 200).
Notation "m ;; k" := (bind m (fun _ => k))
  (at level 100, k at level 200, right associativity).

(** [f.Close()]: the descriptor leaves the table. *)
Definition Close (f : File) (s : St) : St :=
  emit (EvClose (fd f)) (set_fds (delete (fd f)) s).

Definition defer_Close {R} (f : File) : Go R unit :=
  modify (set_deferred (cons f)).

Definition run_deferred (s : St) : St :=
  set_deferred (fun _ => []) (fold_left (fun s f => Close f s) (deferred s) s).

(** A call: the body runs in a frame of its own; when it returns, falls
    off its end or panics, the frame's deferred calls run, last
    registered first, and the caller's frame is back. *)
Definition finish_call {R A} (saved : list File) (res : Completion A A * St)
    : Completion R A * St :=
  let '(c, s1) := res in
  let s2 := set_deferred (fun _ => saved) (run_deferred s1) in
  match c with
  | Next a | Return a => (Next a, s2)
  | Panic msg => (Panic msg, s2)
  end.

Definition call {R A} (body : Go A A) : Go R A :=
  fun s => finish_call (deferred s) (body (set_deferred (fun _ => []) s)).

(** [*p] *)
Definition deref {R A} (p : option A) : Go R A :=
  match p with
  | Some a => value a
  | None => panic "runtime error: invalid memory address or nil pointer dereference"
  end.

(** ** fmt, net/http, os, io at the calls the sources make *)

Definition Info : string := "INFO".
Definition Error : string := "ERROR".

Definition esc : string := str1 (byte_of 27).

Definition StatusOK : Z := 200.
Definition StatusBadRequest : Z := 400.
Definition StatusUnauthorized : Z := 401.
Definition StatusForbidden : Z := 403.
Definition StatusInternalServerError : Z := 500.

Definition Printf {R} (out : string) : Go R unit :=
  modify (set_stdout (fun o => (o ++ [out])%list)).

Definition logMessage {R} (messageType message : string) : Go R unit :=
  if String.eqb messageType Info then
    Printf ("[INFO] " +:+ message +:+ str1 nl)
  else if String.eqb messageType Error then
    Printf (esc +:+ "[31m[ERROR] " +:+ message +:+ esc +:+ "[0m" +:+ str1 nl)
  else value tt.

(** [w.WriteHeader(code)]: the first call sends the status line and the
    header as it stands; later calls change nothing. *)
Definition write_header (code : Z) (rw : ResponseWriter) : ResponseWriter :=
  match w_status rw with
  | Some _ => rw
  | None => {| w_header := w_header rw; w_status := Some code;
               w_sent := w_header rw; w_body := w_body rw |}
  end.

Definition write_body (b : string) (rw : ResponseWriter) : ResponseWriter :=
  let rw := write_header StatusOK rw in
  {| w_header := w_header rw; w_status := w_status rw;
     w_sent := w_sent rw; w_body := w_body rw +:+ b |}.

Definition set_header (f : gmap string string -> gmap string string)
    (rw : ResponseWriter) : ResponseWriter :=
  {| w_header := f (w_header rw); w_status := w_status rw;
     w_sent := w_sent rw; w_body := w_body rw |}.

Definition WriteHeader {R} (code : Z) : Go R unit := modify (set_w (write_header code)).
Definition Write {R} (b : string) : Go R unit := modify (set_w (write_body b)).
Definition Fprintln {R} (b : string) : Go R unit := Write (b +:+ str1 nl).
Definition Header_Set {R} (k v : string) : Go R unit :=
  modify (set_w (set_header (insert k v))).
Definition Header_Del {R} (k : string) : Go R unit :=
  modify (set_w (set_header (delete k))).

(** [http.Error(w, msg, code)] *)
Definition http_Error {R} (msg : string) (code : Z) : Go R unit :=
  Header_Del "Content-Length" ;;
  Header_Set "Content-Type" "text/plain; charset=utf-8" ;;
  Header_Set "X-Content-Type-Options" "nosniff" ;;
  WriteHeader code ;;
  Fprintln msg.

Definition open_stream (name : string) (src : Stream) (s : St) : File * St :=
  ({| fd := next_fd s; Name := name |},
   set_next_fd S (set_fds (insert (next_fd s) src) s)).

Definition read_stream (s : St) (f : File) : error + string :=
  match fds s !! fd f with
  | Some (OnDisk p) =>
      match files s !! p with
      | Some data => inr data
      | None => inl ("read " +:+ p +:+ ": no such file or directory")
      end
  | Some (InMemory data) => inr data
  | Some (Network data) => data
  | None => inl ("read " +:+ Name f +:+ ": file already closed")
  end.

Definition find_part (key : string) (parts : list Part) : option Part :=
  List.find (fun p => String.eqb (part_name p) key) parts.

(** [r.FormFile(key)]: the first file of that form field.  The parts are
    taken as held in memory, where net/http keeps the file parts of a
    form of up to 32 MB; the temporary files it writes for a larger form
    are not modelled. *)
Definition FormFile {R} (r : Request) (key : string)
    : Go R (error + File * FileHeader) :=
  fun s =>
    let s := emit (EvFormFile key) s in
    match multipart r with
    | inl err => (Next (inl err), s)
    | inr parts =>
        match find_part key parts with
        | None => (Next (inl "http: no such file"), s)
        | Some p =>
            let '(f, s) :=
              open_stream (Filename (part_header p)) (InMemory (part_content p)) s in
            (Next (inr (f, part_header p)), s)
        end
    end.

(** [os.CreateTemp(dir, pattern)]: the runtime picks the name; on success
    the file is on disk, empty, and open. *)
Definition CreateTemp {R} (W : World) (dir pattern : string) : Go R (error + File) :=
  fun s =>
    let s := emit (EvCreateTemp dir pattern) s in
    match os_CreateTemp W dir pattern with
    | inl err => (Next (inl err), s)
    | inr name =>
        let '(f, s) := open_stream name (OnDisk name) (set_files (insert name "") s) in
        (Next (inr f), s)
    end.

Definition append_to (dst : File) (data : string) (s : St) : St :=
  match fds s !! fd dst with
  | Some (OnDisk p) =>
      set_files (insert p (default "" (files s !! p) +:+ data)) s
  | _ => s
  end.

(** [io.Copy(dst, src)]: the bytes written and the error, if any. *)
Definition Copy {R} (W : World) (dst src : File) : Go R (Z * option error) :=
  fun s =>
    match read_stream s src with
    | inl err => (Next (0%Z, Some err), emit (EvCopy (Name dst) 0) s)
    | inr data =>
        match io_Copy_fault W with
        | Some (n, err) =>
            let part := substring 0 n data in
            (Next (Z.of_nat (String.length part), Some err),
             emit (EvCopy (Name dst) (String.length part)) (append_to dst part s))
        | None =>
            (Next (Z.of_nat (String.length data), None),
             emit (EvCopy (Name dst) (String.length data)) (append_to dst data s))
        end
    end.

(** [os.Open(name)] *)
Definition Open {R} (name : string) : Go R (error + File) :=
  fun s =>
    let s := emit (EvOpen name) s in
    match files s !! name with
    | None => (Next (inl ("open " +:+ name +:+ ": no such file or directory")), s)
    | Some _ =>
        let '(f, s) := open_stream name (OnDisk name) s in
        (Next (inr f), s)
    end.

(** [client.Transcripts.TranscribeFromReader(ctx, file, params)] for a
    client made with [key], when the call returns; a panic or a hang
    inside the SDK is outside the model. *)
Definition TranscribeFromReader {R} (W : World) (key : string) (file : File)
    (params : TranscriptOptionalParams) : Go R (error + Transcript) :=
  fun s =>
    match read_stream s file with
    | inl err => (Next (inl err), s)
    | inr audio =>
        (Next (aai_TranscribeFromReader W key audio params),
         emit (EvTranscribe key audio params) s)
    end.

(** [http.NewRequest(method, url, body)]; the method and the URL of the
    sources are well formed, so it does not fail. *)
Definition NewRequest (method url body : string) : error + ClientRequest :=
  inr {| Method := method; URL := url; ReqHeader := ∅; ReqBody := body |}.

Definition ReqHeader_Set (k v : string) (req : ClientRequest) : ClientRequest :=
  {| Method := Method req; URL := URL req;
     ReqHeader := <[k := v]> (ReqHeader req); ReqBody := ReqBody req |}.

(** [client.Do(req)] *)
Definition Do {R} (W : World) (req : ClientRequest) : Go R (error + Response) :=
  fun s =>
    let s := emit (EvHTTP req) s in
    match http_Do W req with
    | inl err => (Next (inl err), s)
    | inr (code, data) =>
        let '(f, s) := open_stream "http.Response.Body" (Network data) s in
        (Next (inr {| StatusCode := code; RespBody := f |}), s)
    end.

(** [io.ReadAll(r)] *)
Definition ReadAll {R} (f : File) : Go R (error + string) :=
  fun s => (Next (read_stream s f), emit (EvReadAll (fd f)) s).

(** [%v] of the [result] struct of getAIResponse. *)
Definition fmt_v_result (choices : list Choice) : string :=
  "{[" +:+ String.concat " " (map (fun c => "{{" +:+ Content c +:+ "}}") choices) +:+ "]}".

(** [user.Get(ctx, id)] of the Clerk SDK *)
Definition Get {R} (W : World) (id : string) : Go R (error + User) :=
  fun s => (Next (user_Get W id), emit (EvUserGet id) s).

(** A handler as the server runs it: a fresh [ResponseWriter], an empty
    frame, the disk as it is. *)
Definition fresh_writer : ResponseWriter :=
  {| w_header := ∅; w_status := None; w_sent := ∅; w_body := "" |}.

Definition boot (disk : gmap string string) : St :=
  {| w := fresh_writer; stdout := []; files := disk; fds := ∅; next_fd := 3;
     trace := []; deferred := [] |}.

Definition serve (h : Request -> Go unit unit) (r : Request)
    (disk : gmap string string) : Completion unit unit * St :=
  call (R := unit) (h r) (boot disk).

(** * src/main.go: POST /upload, transcription without authentication *)

Module Rev2.
Section Server.
Context (W : World) (apiKey : string).

Definition sendToAssemblyAI (fileName : string)
    : Go (error + Transcript) (error + Transcript) :=
  (* client := aai.NewClient(apiKey); ctx := context.Background() *)
  let* file := Open fileName in
  match file with
  | inl err =>
      logMessage Error ("Error opening file: " +:+ err) ;;
      return_ (inl err)
  | inr file =>
      defer_Close file ;;
      let params := {| Punctuate := None; FormatText := None |} in
      let* transcript := TranscribeFromReader W apiKey file params in
      match transcript with
      | inl err =>
          logMessage Error ("Error transcribing file: " +:+ err) ;;
          return_ (inl err)
      | inr transcript => return_ (inr transcript)
      end
  end.

(** src/main.go, lines 30 to 75 *)
Definition uploadHandler (r : Request) : Go unit unit :=
  logMessage Info "Received request" ;;
  let* got := FormFile r "uploadfile" in
  match got with
  | inl err =>
      logMessage Error ("Error getting file: " +:+ err) ;;
      http_Error err StatusBadRequest ;;
      return_ tt
  | inr (file, header) =>
      defer_Close file ;;
      logMessage Info ("Got file: " +:+ Filename header +:+ ", Size: "
                       +:+ pretty (Size header) +:+ " bytes") ;;
      let* created := CreateTemp W "" "upload-*.tmp" in
      match created with
      | inl err =>
          logMessage Error ("Error creating temporary file: " +:+ err) ;;
          http_Error err StatusInternalServerError ;;
          return_ tt
      | inr tempFile =>
          defer_Close tempFile ;;
          logMessage Info ("Created temporary file: " +:+ Name tempFile) ;;
          let* copied := Copy W tempFile file in
          match copied with
          | (written, Some err) =>
              logMessage Error ("Error copying file: " +:+ err) ;;
              http_Error err StatusInternalServerError ;;
              return_ tt
          | (written, None) =>
              logMessage Info ("Copied " +:+ pretty written
                               +:+ " bytes to temporary file") ;;
              let* sent := call (sendToAssemblyAI (Name tempFile)) in
              match sent with
              | inl err =>
                  logMessage Error ("Error sending file to AssemblyAI: " +:+ err) ;;
                  http_Error err StatusInternalServerError ;;
                  return_ tt
              | inr transcript =>
                  let* text := deref (Text transcript) in
                  Printf ("Transcript: " +:+ text +:+ str1 nl) ;;
                  WriteHeader StatusOK ;;
                  let* text := deref (Text transcript) in
                  Fprintln (lit "{'status': 'success', 'transcript': '" +:+ text +:+ lit "'}")
              end
          end
      end
  end.

Definition mux (pattern : string) : option (Request -> Go unit unit) :=
  if String.eqb pattern "POST /upload" then Some uploadHandler else None.

End Server.
End Rev2.

(** * src/unnamed/part_001: POST /transcribe behind the Clerk session check *)

Module Rev3.
Section Server.
Context (W : World) (apiKey : string).

Definition sendToAssemblyAI (fileName : string)
    : Go (error + Transcript) (error + Transcript) :=
  (* client := aai.NewClient(apiKey); ctx := context.Background() *)
  let* file := Open fileName in
  match file with
  | inl err =>
      logMessage Error ("Error opening file: " +:+ err) ;;
      return_ (inl err)
  | inr file =>
      defer_Close file ;;
      let params := {| Punctuate := None; FormatText := None |} in
      let* transcript := TranscribeFromReader W apiKey file params in
      match transcript with
      | inl err =>
          logMessage Error ("Error transcribing file: " +:+ err) ;;
          return_ (inl err)
      | inr transcript => return_ (inr transcript)
      end
  end.

(** uploadHandler from line 60 on ("Received request"), the part of the
    handler behind the session check. *)
Definition uploadHandler_rest (r : Request) : Go unit unit :=
  logMessage Info "Received request" ;;
  let* got := FormFile r "uploadfile" in
  match got with
  | inl err =>
      logMessage Error ("Error getting file: " +:+ err) ;;
      http_Error err StatusBadRequest ;;
      return_ tt
  | inr (file, header) =>
      defer_Close file ;;
      logMessage Info ("Got file: " +:+ Filename header +:+ ", Size: "
                       +:+ pretty (Size header) +:+ " bytes") ;;
      let* created := CreateTemp W "" "upload-*.tmp" in
      match created with
      | inl err =>
          logMessage Error ("Error creating temporary file: " +:+ err) ;;
          http_Error err StatusInternalServerError ;;
          return_ tt
      | inr tempFile =>
          defer_Close tempFile ;;
          logMessage Info ("Created temporary file: " +:+ Name tempFile) ;;
          let* copied := Copy W tempFile file in
          match copied with
          | (written, Some err) =>
              logMessage Error ("Error copying file: " +:+ err) ;;
              http_Error err StatusInternalServerError ;;
              return_ tt
          | (written, None) =>
              logMessage Info ("Copied " +:+ pretty written
                               +:+ " bytes to temporary file") ;;
              let* sent := call (sendToAssemblyAI (Name tempFile)) in
              match sent with
              | inl err =>
                  logMessage Error ("Error sending file to AssemblyAI: " +:+ err) ;;
                  http_Error err StatusInternalServerError ;;
                  return_ tt
              | inr transcript =>
                  let* text := deref (Text transcript) in
                  Printf ("Transcript: " +:+ text +:+ str1 nl) ;;
                  WriteHeader StatusOK ;;
                  let* text := deref (Text transcript) in
                  Fprintln (lit "{'status': 'success', 'transcript': '" +:+ text +:+ lit "'}")
              end
          end
      end
  end.

(** part_001, lines 33 to 104 *)
Definition uploadHandler (r : Request) : Go unit unit :=
  match ctx_claims r with
  | None =>
      logMessage Error "No session claims found" ;;
      logMessage Info ("headers: " +:+ fmt_v_Header W (RHeader r)) ;;
      WriteHeader StatusUnauthorized ;;
      Write (lit "{'access': 'unauthorized'}") ;;
      return_ tt
  | Some claims =>
      let* found := Get W (Subject claims) in
      match found with
      | inl err =>
          logMessage Error ("Error getting user: " +:+ err) ;;
          WriteHeader StatusInternalServerError ;;
          Write (lit "{'access': 'internal server error'}") ;;
          return_ tt
      | inr usr =>
          logMessage Info ("User: " +:+ ID usr) ;;
          if Banned usr then
            WriteHeader StatusForbidden ;;
            Write (lit "{'access': 'forbidden'}") ;;
            return_ tt
          else uploadHandler_rest r
      end
  end.

Definition mux (pattern : string) : option (Request -> Go unit unit) :=
  if String.eqb pattern "POST /transcribe" then Some uploadHandler else None.

End Server.
End Rev3.

(** * src/go.mod (the main.go it carries): POST /transcribe and POST /summarize *)

Module Rev4.

Definition promptPrefix : string := "Task: Summarize the following transcript of a STEM lecture. Extract the main points, key concepts, and essential details.

If any critical information is missing or unclear, use your knowledge to fill in gaps while staying true to the topic.
Output format: The summary must be written in Markdown. You may use:
  Headings (#, ##, ###) to structure content.
  Bullet points (-, *) for key points.
  Tables when presenting structured data.
  LaTeX ($inline$ or $$block$$) for mathematical notation.
Strict formatting rule: Output only the Markdown-formatted summary—no extra text, explanations, or disclaimers. Any deviation from this instruction will result in a 0 grade.
Transcript:".

Section Server.
Context (W : World) (assemblyApiKey groqApiKey : string).

Definition sendToAssemblyAI (fileName : string)
    : Go (error + Transcript) (error + Transcript) :=
  (* client := aai.NewClient(assemblyApiKey); ctx := context.Background() *)
  let* file := Open fileName in
  match file with
  | inl err =>
      logMessage Error ("Error opening file: " +:+ err) ;;
      return_ (inl err)
  | inr file =>
      defer_Close file ;;
      let params := {| Punctuate := Some true; FormatText := Some true |} in
      let* transcript := TranscribeFromReader W assemblyApiKey file params in
      match transcript with
      | inl err =>
          logMessage Error ("Error transcribing file: " +:+ err) ;;
          return_ (inl err)
      | inr transcript => return_ (inr transcript)
      end
  end.

(** uploadHandler from line 104 on, the part of the handler behind the
    session check. *)
Definition uploadHandler_rest (r : Request) : Go unit unit :=
  logMessage Info "Received request" ;;
  let* got := FormFile r "uploadfile" in
  match got with
  | inl err =>
      logMessage Error ("Error getting file: " +:+ err) ;;
      http_Error err StatusBadRequest ;;
      return_ tt
  | inr (file, header) =>
      defer_Close file ;;
      logMessage Info ("Got file: " +:+ Filename header +:+ ", Size: "
                       +:+ pretty (Size header) +:+ " bytes") ;;
      let* created := CreateTemp W "" "upload-*.tmp" in
      match created with
      | inl err =>
          logMessage Error ("Error creating temporary file: " +:+ err) ;;
          http_Error err StatusInternalServerError ;;
          return_ tt
      | inr tempFile =>
          defer_Close tempFile ;;
          logMessage Info ("Created temporary file: " +:+ Name tempFile) ;;
          let* copied := Copy W tempFile file in
          match copied with
          | (written, Some err) =>
              logMessage Error ("Error copying file: " +:+ err) ;;
              http_Error err StatusInternalServerError ;;
              return_ tt
          | (written, None) =>
              logMessage Info ("Copied " +:+ pretty written
                               +:+ " bytes to temporary file") ;;
              let* sent := call (sendToAssemblyAI (Name tempFile)) in
              match sent with
              | inl err =>
                  logMessage Error ("Error sending file to AssemblyAI: " +:+ err) ;;
                  http_Error err StatusInternalServerError ;;
                  return_ tt
              | inr transcript =>
                  let* text := deref (Text transcript) in
                  Printf ("Transcript: " +:+ text +:+ str1 nl) ;;
                  WriteHeader StatusOK ;;
                  let* text := deref (Text transcript) in
                  Fprintln (lit "{'status': 'success', 'transcript': '" +:+ text +:+ lit "'}")
              end
          end
      end
  end.

(** lines 77 to 148 *)
Definition uploadHandler (r : Request) : Go unit unit :=
  match ctx_claims r with
  | None =>
      logMessage Error "No session claims found" ;;
      logMessage Info ("headers: " +:+ fmt_v_Header W (RHeader r)) ;;
      WriteHeader StatusUnauthorized ;;
      Write (lit "{'access': 'unauthorized'}") ;;
      return_ tt
  | Some claims =>
      let* found := Get W (Subject claims) in
      match found with
      | inl err =>
          logMessage Error ("Error getting user: " +:+ err) ;;
          WriteHeader StatusInternalServerError ;;
          Write (lit "{'access': 'internal server error'}") ;;
          return_ tt
      | inr usr =>
          logMessage Info ("User: " +:+ ID usr) ;;
          if Banned usr then
            WriteHeader StatusForbidden ;;
            Write (lit "{'access': 'forbidden'}") ;;
            return_ tt
          else uploadHandler_rest r
      end
  end.

Definition getAIResponse (prompt : string) : Go (error + string) (error + string) :=
  let url := "https://api.groq.com/openai/v1/chat/completions" in
  let payload :=
    {| model := "llama-3.3-70b-versatile";
       messages := [ {| role := "user"; content := prompt |} ] |} in
  match json_Marshal W payload with
  | inl err => return_ (inl err)
  | inr payloadBytes =>
  match NewRequest "POST" url payloadBytes with
  | inl err => return_ (inl err)
  | inr req =>
      let req := ReqHeader_Set "Content-Type" "application/json" req in
      let req := ReqHeader_Set "Authorization" ("Bearer " +:+ groqApiKey) req in
      let* resp := Do W req in
      logMessage Info ("request: " +:+ fmt_v_ClientRequest W req) ;;
      match resp with
      | inl err => return_ (inl err)
      | inr resp =>
          defer_Close (RespBody resp) ;;
          if negb (StatusCode resp =? StatusOK)%Z then
            return_ (inl ("unexpected status code: " +:+ pretty (StatusCode resp)
                          +:+ ", " +:+ fmt_s_ReadCloser W (RespBody resp)))
          else
            let* body := ReadAll (RespBody resp) in
            match body with
            | inl err => return_ (inl err)
            | inr body =>
                match json_Unmarshal W body with
                | inl err => return_ (inl err)
                | inr result =>
                    logMessage Info ("response: " +:+ fmt_v_result result) ;;
                    match result with
                    | [] => return_ (inl "no response from AI")
                    | first :: _ => return_ (inr (Content first))
                    end
                end
            end
      end
  end
  end.

(** handleSummaryRequest from line 172 on, the part of the handler
    behind the session check. *)
Definition handleSummaryRequest_rest (r : Request) : Go unit unit :=
  logMessage Info "Received request" ;;
  match json_Decode W (Body r) with
  | inl err =>
      logMessage Error "Invalid JSON body" ;;
      http_Error "Invalid JSON body" StatusBadRequest ;;
      return_ tt
  | inr decoded =>
      let requestData_Text := default "" decoded in
      let transcript := requestData_Text in
      if String.eqb transcript "" then
        logMessage Error "No transcript provided" ;;
        http_Error "No transcript provided" StatusBadRequest ;;
        return_ tt
      else
        let* got := call (getAIResponse (promptPrefix +:+ transcript)) in
        match got with
        | inl err =>
            logMessage Error ("Error getting summary from AI: " +:+ err) ;;
            http_Error err StatusInternalServerError ;;
            return_ tt
        | inr summary =>
            let sanitizedSummary := sanitizeInput summary in
            WriteHeader StatusOK ;;
            Header_Set "Content-Type" "application/json" ;;
            logMessage Info ("Summary: " +:+ sanitizedSummary) ;;
            Write (lit "{'status': 'success', 'summary': '" +:+ sanitizedSummary +:+ lit "'}")
        end
  end.

(** lines 150 to 206 *)
Definition handleSummaryRequest (r : Request) : Go unit unit :=
  match ctx_claims r with
  | None =>
      logMessage Error "No session claims found" ;;
      logMessage Info ("headers: " +:+ fmt_v_Header W (RHeader r)) ;;
      WriteHeader StatusUnauthorized ;;
      Write (lit "{'access': 'unauthorized'}") ;;
      return_ tt
  | Some claims =>
      let* found := Get W (Subject claims) in
      match found with
      | inl err =>
          logMessage Error ("Error getting user: " +:+ err) ;;
          WriteHeader StatusInternalServerError ;;
          Write (lit "{'access': 'internal server error'}") ;;
          return_ tt
      | inr usr =>
          logMessage Info ("User: " +:+ ID usr) ;;
          if Banned usr then
            WriteHeader StatusForbidden ;;
            Write (lit "{'access': 'forbidden'}") ;;
            return_ tt
          else handleSummaryRequest_rest r
      end
  end.

Definition mux (pattern : string) : option (Request -> Go unit unit) :=
  if String.eqb pattern "POST /transcribe" then Some uploadHandler
  else if String.eqb pattern "POST /summarize" then Some handleSummaryRequest
  else None.

End Server.
End Rev4.

(** * Reading the handlers' runs *)

(** The authentication state of a request, as the session check sees
    it: claims absent, user lookup failed, user banned, or let through. *)
Inductive AuthState := NoClaims | LookupFailed | UserBanned | Allowed.

Definition auth_state (W : World) (r : Request) : AuthState :=
  match ctx_claims r with
  | None => NoClaims
  | Some claims =>
      match user_Get W (Subject claims) with
      | inl _ => LookupFailed
      | inr usr => if Banned usr then UserBanned else Allowed
      end
  end.

(** Section 4.1 of the spec, in its words: the reply of the auth
    middleware in each state, [None] where control passes on. *)
Definition auth_middleware_spec (a : AuthState) : option (Z * string) :=
  match a with
  | NoClaims => Some (401%Z, lit "{'access':'unauthorized'}")
  | LookupFailed => Some (500%Z, lit "{'access':'internal server error'}")
  | UserBanned => Some (403%Z, lit "{'access':'forbidden'}")
  | Allowed => None
  end.

(** The state in which the session check hands over to the rest of a
    handler: one user lookup made, one line logged, nothing written. *)
Definition after_auth (claims : SessionClaims) (usr : User)
    (disk : gmap string string) : St :=
  {| w := fresh_writer;
     stdout := ["[INFO] " +:+ ("User: " +:+ ID usr) +:+ str1 nl];
     files := disk; fds := ∅; next_fd := 3;
     trace := [EvUserGet (Subject claims)]; deferred := [] |}.

Definition is_lookup (e : Event) : bool :=
  match e with EvUserGet _ => true | _ => false end.

(** A run that returned normally having answered [code] with the bytes
    [raw], which read as the JSON text [doc], and having made no call
    other than user lookups. *)
Definition replied (run : Completion unit unit * St)
    (code : Z) (raw doc : string) : Prop :=
  run.1 = Next tt
  /\ w_status (w run.2) = Some code
  /\ w_body (w run.2) = raw
  /\ is_Some (json_flat_object doc)
  /\ json_flat_object raw = json_flat_object doc
  /\ forallb is_lookup (trace run.2) = true.

(** What the session check of handler [h], whose remainder is [rest],
    owes for request [r]: the reply of the spec in the three rejecting
    states, and otherwise the run of [rest]. *)
Definition auth_prelude_ok (W : World) (h rest : Request -> Go unit unit)
    (r : Request) (disk : gmap string string) : Prop :=
  match ctx_claims r with
  | None =>
      replied (serve h r disk) 401
        (lit "{'access': 'unauthorized'}") (lit "{'access':'unauthorized'}")
  | Some claims =>
      match user_Get W (Subject claims) with
      | inl _ =>
          replied (serve h r disk) 500
            (lit "{'access': 'internal server error'}")
            (lit "{'access':'internal server error'}")
      | inr usr =>
          if Banned usr then
            replied (serve h r disk) 403
              (lit "{'access': 'forbidden'}") (lit "{'access':'forbidden'}")
          else serve h r disk = call (R := unit) (rest r) (after_auth claims usr disk)
      end
  end.

(** The uploaded file of a request, when its form parses and has one. *)
Definition upload_of (r : Request) : option Part :=
  match multipart r with
  | inl _ => None
  | inr parts => find_part "uploadfile" parts
  end.

(** C3 as the spec states it: the temporary file is closed and gone. *)
Definition temp_file_released (s : St) (tempFile : File) : Prop :=
  fds s !! fd tempFile = None /\ files s !! Name tempFile = None.

(** C6 as the spec states it, on one event. *)
Definition options_enabled (e : Event) : bool :=
  match e with
  | EvTranscribe _ _ {| Punctuate := Some true; FormatText := Some true |} => true
  | EvTranscribe _ _ _ => false
  | _ => true
  end.

Definition options_unset (e : Event) : bool :=
  match e with
  | EvTranscribe _ _ {| Punctuate := None; FormatText := None |} => true
  | EvTranscribe _ _ _ => false
  | _ => true
  end.

Definition is_transcribe (e : Event) : bool :=
  match e with EvTranscribe _ _ _ => true | _ => false end.

Definition is_completion_call (e : Event) : bool :=
  match e with EvHTTP _ => true | _ => false end.

Definition is_body_read (e : Event) : bool :=
  match e with EvReadAll _ => true | _ => false end.

(** The world [W] with the body of every provider response replaced. *)
Definition with_response_body (W : World) (data : error + string) : World :=
  {| user_Get := user_Get W;
     os_CreateTemp := os_CreateTemp W;
     io_Copy_fault := io_Copy_fault W;
     aai_TranscribeFromReader := aai_TranscribeFromReader W;
     http_Do := fun req =>
       match http_Do W req with
       | inl err => inl err
       | inr (code, _) => inr (code, data)
       end;
     json_Marshal := json_Marshal W;
     json_Unmarshal := json_Unmarshal W;
     json_Decode := json_Decode W;
     fmt_v_Header := fmt_v_Header W;
     fmt_v_ClientRequest := fmt_v_ClientRequest W;
     fmt_s_ReadCloser := fmt_s_ReadCloser W |}.

(** The request getAIResponse sends for a prompt, when the payload
    marshals. *)
Definition completion_request (groqApiKey payloadBytes : string) : ClientRequest :=
  {| Method := "POST";
     URL := "https://api.groq.com/openai/v1/chat/completions";
     ReqHeader := <["Authorization" := "Bearer " +:+ groqApiKey]>
                    (<["Content-Type" := "application/json"]> ∅);
     ReqBody := payloadBytes |}.

Definition completion_payload (prompt : string) : Payload :=
  {| model := "llama-3.3-70b-versatile";
     messages := [ {| role := "user"; content := prompt |} ] |}.

(** The bytes a sanitizer pass rewrites to a two-byte escape. *)
Definition is_escaped (c : ascii) : bool :=
  existsb (Ascii.eqb c) [bs; nl; tab; cr; ff].

Fixpoint has_byte (p : ascii -> bool) (s : string) : bool :=
  match s with
  | "" => false
  | String c r => p c || has_byte p r
  end.

(** The transcript member of a response body, when it is JSON. *)
Definition transcript_field (body : string) : option string :=
  json_flat_object body ≫= json_field "transcript".

Definition summary_field (body : string) : option string :=
  json_flat_object body ≫= json_field "summary".

(** The temporary file at the end of a run: its descriptor closed, the
    file still on disk. *)
Definition temp_file_closed_kept (s : St) (tempFile : File) : Prop :=
  fds s !! fd tempFile = None /\ is_Some (files s !! Name tempFile).

(** The text of the runtime panic of a nil dereference. *)
Definition nil_dereference : string :=
  "runtime error: invalid memory address or nil pointer dereference".

(** The bytes a sanitizer pass drops: the control characters it does
    not escape. *)
Definition dropped_class : CharClass := [(0, 8); (11, 11); (14, 31)]%nat.

(** The error of a response that is not 200: the status code, then the
    rendering by [%s] of [resp.Body], which is the reader and not what
    it would yield. *)
Definition unexpected_status (W : World) (code : Z) : string :=
  "unexpected status code: " +:+ pretty code +:+ ", "
  +:+ fmt_s_ReadCloser W {| fd := 3; Name := "http.Response.Body" |}.

(** The bytes that stand for themselves inside a JSON string literal. *)
Definition is_plain (c : ascii) : bool :=
  negb (Ascii.eqb c dq) && negb (Ascii.eqb c bs) && (32 <=? nat_of_ascii c)%nat.

Fixpoint all_bytes (p : ascii -> bool) (s : string) : bool :=
  match s with
  | "" => true
  | String c r => p c && all_bytes p r
  end.

(** * Sample worlds and requests *)

Module Sample.

Definition world (text : option string) (choices : list Choice) (code : Z) : World :=
  {| user_Get := fun id =>
       if String.eqb id "user_down" then inl "clerk: 503"
       else inr {| ID := id; Banned := String.eqb id "user_banned" |};
     os_CreateTemp := fun _ _ => inr "/tmp/upload-2914.tmp";
     io_Copy_fault := None;
     aai_TranscribeFromReader := fun _ _ _ => inr {| Text := text |};
     http_Do := fun _ =>
       inr (code, inr (if (code =? 200)%Z then lit "{'choices': []}"
                       else "rate limit exceeded"));
     json_Marshal := fun p =>
       inr (lit "{'messages':[{'content':'"
            +:+ String.concat "" (map content (messages p))
            +:+ lit "','role':'user'}],'model':'" +:+ model p +:+ lit "'}");
     json_Unmarshal := fun _ => inr choices;
     json_Decode := fun b =>
       match json_flat_object b with
       | Some o => inr (json_field "text" o)
       | None => inl "invalid character"
       end;
     fmt_v_Header := fun _ => "map[]";
     fmt_v_ClientRequest := fun _ => "&{POST}";
     fmt_s_ReadCloser := fun _ => "&{0xc000212000}" |}.

Definition W : World := world (Some "hello world") [ {| Content := "# Summary" |} ] 200.

Definition wav : Part :=
  {| part_name := "uploadfile";
     part_header := {| Filename := "a.wav"; Size := 10 |};
     part_content := "RIFFWAVE01" |}.

Definition request (subject : option string) (body : string) : Request :=
  {| ctx_claims := (fun s => {| Subject := s |}) <$> subject;
     RHeader := [];
     multipart := inr [wav];
     Body := body |}.

Definition r : Request :=
  request (Some "user_1") (lit "{'text': 'lecture on integrals'}").

End Sample.

Module SampleText.

(** A transcript of two lines: the bytes between hold a line feed. *)
Definition two_lines : string := "first line" +:+ str1 nl +:+ "second line".

(** A transcript that holds a backslash followed by the letter n. *)
Definition path : string := "C:" +:+ str1 bs +:+ "new".

(** A text that holds double quotes. *)
Definition quoted : string := "say " +:+ str1 dq +:+ "hi" +:+ str1 dq.

End SampleText.
(** * More of the sources: counters *)

(** The number of bytes of [s] that satisfy [p]. *)
Fixpoint count_bytes (p : ascii -> bool) (s : string) : nat :=
  match s with
  | "" => 0
  | String c r => (if p c then 1 else 0) + count_bytes p r
  end.

Definition is_control (c : ascii) : bool := (nat_of_ascii c <? 32)%nat.
Definition is_backslash (c : ascii) : bool := Ascii.eqb c bs.

(** The bytes a sanitizer pass does not copy as they are. *)
Definition is_rewritten (c : ascii) : bool := is_backslash c || is_control c.

(** The bytes a sanitizer pass removes. *)
Definition is_dropped (c : ascii) : bool := class_match dropped_class c.

(** ** Counting what a run did *)

Definition count_events (p : Event -> bool) (l : list Event) : nat :=
  length (List.filter p l).

Definition is_create_temp (e : Event) : bool :=
  match e with EvCreateTemp _ _ => true | _ => false end.

(** Every request of the run to a provider carried the key meant for
    it: [k] to the transcription provider, [g] as bearer token to the
    completion provider. *)
Definition carries_key (k g : string) (e : Event) : Prop :=
  match e with
  | EvTranscribe k' _ _ => k' = k
  | EvHTTP req => ReqHeader req !! "Authorization" = Some ("Bearer " +:+ g)
  | _ => True
  end.

Definition uses_keys (k g : string) (l : list Event) : Prop :=
  Forall (carries_key k g) l.

(** Every completion request of the run was [req]. *)
Definition completes_with (req : ClientRequest) (l : list Event) : Prop :=
  Forall (fun e => match e with EvHTTP req' => req' = req | _ => True end) l.

(** The user lookups the session check makes for a request. *)
Definition expected_lookups (r : Request) : list Event :=
  match ctx_claims r with
  | None => []
  | Some claims => [EvUserGet (Subject claims)]
  end.

(** A run that returned having answered with one of [codes]. *)
Definition answered (run : Completion unit unit * St) (codes : list Z) : Prop :=
  run.1 = Next tt /\ exists code, w_status (w run.2) = Some code /\ In code codes.

(** A run that panicked on a nil dereference with nothing written. *)
Definition panicked_unanswered (run : Completion unit unit * St) : Prop :=
  run.1 = Panic nil_dereference /\ w (run.2) = fresh_writer.

(** What [r.FormFile("uploadfile")] answers when it yields no file. *)
Definition form_file_error (r : Request) : option error :=
  match multipart r with
  | inl err => Some err
  | inr parts =>
      match find_part "uploadfile" parts with
      | None => Some "http: no such file"
      | Some _ => None
      end
  end.

(** The calls of a run other than the user lookups and the closes. *)
Definition is_close (e : Event) : bool :=
  match e with EvClose _ => true | _ => false end.

Definition work (l : list Event) : list Event :=
  List.filter (fun e => negb (is_lookup e || is_close e)) l.

(** [r.FormFile] parses the form with [ParseMultipartForm(32 << 20)]:
    the file parts stay in memory as long as they add up to 32 MB at
    most, and beyond that net/http stores them in temporary files of
    its own, which [FormFile] does not model.  What is said of the
    whole disk is said of the forms that parse and fit in memory. *)
Definition defaultMaxMemory : N := 33554432.

Definition form_size (parts : list Part) : N :=
  N.of_nat (list_sum (map (fun p => String.length (part_content p)) parts)).

Definition form_in_memory (r : Request) : bool :=
  match multipart r with
  | inl _ => false
  | inr parts => (form_size parts <=? defaultMaxMemory)%N
  end.

(** The header map of the handler as it stood when the status line was
    written.  What the handler puts into [w.Header()] later is not part
    of the response; net/http completes this map with headers of its
    own, among them a Content-Type it picks from the body when the
    handler has set none. *)
Definition header_at_WriteHeader (s : St) : gmap string string := w_sent (w s).

(** A run that returned has answered with one of [codes]. *)
Definition returns_answered (run : Completion unit unit * St) (codes : list Z) : Prop :=
  run.1 = Next tt -> exists code, w_status (w run.2) = Some code /\ In code codes.

(** A plain-text error reply of [http.Error]: the status, the message
    and a line feed, sent as text/plain with nosniff. *)
Definition plain_error (run : Completion unit unit * St) (code : Z) (msg : string) : Prop :=
  run.1 = Next tt
  /\ w_status (w run.2) = Some code
  /\ w_body (w run.2) = msg +:+ str1 nl
  /\ w_sent (w run.2) !! "Content-Type" = Some "text/plain; charset=utf-8"
  /\ w_sent (w run.2) !! "X-Content-Type-Options" = Some "nosniff".

(** The JSON reply of a successful summarize request for the summary
    the provider gave. *)
Definition summary_reply (summary : string) : string :=
  lit "{'status': 'success', 'summary': '" +:+ sanitizeInput summary +:+ lit "'}".

(** The request body of a summarize request decodes to this text. *)
Definition decoded_text (W : World) (r : Request) : option string :=
  match json_Decode W (Body r) with
  | inr (Some text) => if String.eqb text "" then None else Some text
  | _ => None
  end.

(** The world [W] with its file and provider calls failing as given. *)
Definition with_faults (W : World) (temp : error + string)
    (copy : option (nat * error)) (aai : option error) : World :=
  {| user_Get := user_Get W;
     os_CreateTemp := fun _ _ => temp;
     io_Copy_fault := copy;
     aai_TranscribeFromReader := fun key audio params =>
       match aai with
       | Some err => inl err
       | None => aai_TranscribeFromReader W key audio params
       end;
     http_Do := http_Do W;
     json_Marshal := json_Marshal W;
     json_Unmarshal := json_Unmarshal W;
     json_Decode := json_Decode W;
     fmt_v_Header := fmt_v_Header W;
     fmt_v_ClientRequest := fmt_v_ClientRequest W;
     fmt_s_ReadCloser := fmt_s_ReadCloser W |}.

(** * src/unnamed/part_002: POST /upload, the file kept under ./upload *)

Module Rev1.

(** [fmt.Println(a, b)]: the operands, a space between them, a line
    feed. *)
Definition Println {R} (out : string) : Go R unit := Printf (out +:+ str1 nl).

(** [os.Create(name)]: the file is created, or truncated when it is
    there, and open; [fault] says when the system refuses. *)
Definition Create {R} (fault : string -> option error) (name : string)
    : Go R (error + File) :=
  fun s =>
    let s := emit (EvOpen name) s in
    match fault name with
    | Some err => (Next (inl err), s)
    | None =>
        let '(f, s) := open_stream name (OnDisk name) (set_files (insert name "") s) in
        (Next (inr f), s)
    end.

Section Server.
Context (W : World) (os_Create_fault : string -> option error).

(** part_002, lines 10 to 54 *)
Definition uploadHandler (r : Request) : Go unit unit :=
  Println "Received request" ;;
  let* got := FormFile r "uploadfile" in
  match got with
  | inl err =>
      Println ("Error getting file:" +:+ " " +:+ err) ;;
      http_Error err StatusBadRequest ;;
      return_ tt
  | inr (file, header) =>
      defer_Close file ;;
      Printf ("Got file: " +:+ Filename header +:+ ", Size: "
              +:+ pretty (Size header) +:+ " bytes" +:+ str1 nl) ;;
      let* created := Create os_Create_fault ("./upload/" +:+ Filename header) in
      match created with
      | inl err =>
          Println ("Error opening file:" +:+ " " +:+ err) ;;
          http_Error err StatusInternalServerError ;;
          return_ tt
      | inr outputFile =>
          defer_Close outputFile ;;
          Println "Opened file on disk" ;;
          let* copied := Copy W outputFile file in
          match copied with
          | (written, Some err) =>
              Println ("Error copying file:" +:+ " " +:+ err) ;;
              http_Error err StatusInternalServerError ;;
              return_ tt
          | (written, None) =>
              Printf ("Copied " +:+ pretty written +:+ " bytes to disk" +:+ str1 nl) ;;
              WriteHeader StatusOK ;;
              Fprintln (lit "{'status': 'success', 'filename': '" +:+ Filename header
                        +:+ lit "'}")
          end
      end
  end.

Definition mux (pattern : string) : option (Request -> Go unit unit) :=
  if String.eqb pattern "POST /upload" then Some uploadHandler else None.

End Server.
End Rev1.

(** * func main *)

(** How [main] ends: the process exits with a status, or it is serving
    on an address with the routes registered and the keys it read. *)
Inductive Process (K : Type) : Type :=
| Exited (code : Z)
| Serving (addr : string) (patterns : list string) (keys : K).
Arguments Exited {K} code.
Arguments Serving {K} addr patterns keys.

(** [os.Getenv(key)]: the empty string when the variable is not set. *)
Definition Getenv (env : gmap string string) (key : string) : string :=
  default "" (env !! key).

(** [godotenv.Load()]: the variables of the .env file join the
    environment, those already set keep their value; [dotenv] is the
    parsed file, or why it cannot be read. *)
Definition Load (dotenv : error + gmap string string) (environ : gmap string string)
    : error + gmap string string :=
  match dotenv with
  | inl err => inl err
  | inr vars => inr (environ ∪ vars)
  end.

(** [os.Exit(code)]; [main] has no deferred call to skip. *)
Definition Exit {K A} (code : Z) : Go (Process K) A := return_ (Exited code).

(** [http.ListenAndServe(addr, mux)] serves until the process is
    killed, or returns an error right away, which [main] drops. *)
Definition ListenAndServe {K} (addr : string) (patterns : list string) (keys : K)
    (fault : option error) : Go (Process K) unit :=
  match fault with
  | Some _ => value tt
  | None => return_ (Serving addr patterns keys)
  end.

Record Keys := { assemblyApiKey : string; groqApiKey : string; clerkApiKey : string }.

Module Boot2.
Section Start.
Context (dotenv : error + gmap string string) (environ : gmap string string)
        (listen_fault : option error).

(** src/main.go, lines 101 to 121 *)
Definition main : Go (Process string) (Process string) :=
  match Load dotenv environ with
  | inl err =>
      logMessage Error "Error loading .env file" ;;
      Exit 1
  | inr env =>
      let apiKey := Getenv env "ASSEMBLY_API_KEY" in
      if String.eqb apiKey "" then
        logMessage Error "ASSEMBLY_API_KEY not set in .env file" ;;
        Exit 1
      else
        logMessage Info "Starting server on :8080" ;;
        ListenAndServe "0.0.0.0:8080" ["POST /upload"] apiKey listen_fault ;;
        value (Exited 0)
  end.

End Start.
End Boot2.

Module Boot3.
Section Start.
Context (dotenv : error + gmap string string) (environ : gmap string string)
        (listen_fault : option error).

(** part_001, lines 130 to 162 *)
Definition main : Go (Process (string * string)) (Process (string * string)) :=
  match Load dotenv environ with
  | inl err =>
      logMessage Error "Error loading .env file" ;;
      Exit 1
  | inr env =>
      let apiKey := Getenv env "ASSEMBLY_API_KEY" in
      if String.eqb apiKey "" then
        logMessage Error "ASSEMBLY_API_KEY not set in .env file" ;;
        Exit 1
      else
        let clerkApiKey := Getenv env "CLERK_API_KEY" in
        if String.eqb clerkApiKey "" then
          logMessage Error "CLERK_API_KEY not set in .env file" ;;
          Exit 1
        else
          (* clerk.SetKey(clerkApiKey) *)
          logMessage Info "Starting server on :8080" ;;
          ListenAndServe "0.0.0.0:8080" ["POST /transcribe"] (apiKey, clerkApiKey)
            listen_fault ;;
          value (Exited 0)
  end.

End Start.
End Boot3.

Module Boot4.
Section Start.
Context (dotenv : error + gmap string string) (environ : gmap string string)
        (listen_fault : option error).

(** src/go.mod, lines 299 to 338 *)
Definition main : Go (Process Keys) (Process Keys) :=
  match Load dotenv environ with
  | inl err =>
      logMessage Error "Error loading .env file" ;;
      Exit 1
  | inr env =>
      let assemblyApiKey := Getenv env "ASSEMBLY_API_KEY" in
      if String.eqb assemblyApiKey "" then
        logMessage Error "ASSEMBLY_API_KEY not set in .env file" ;;
        Exit 1
      else
        let groqApiKey := Getenv env "GROQ_API_KEY" in
        if String.eqb groqApiKey "" then
          logMessage Error "GROQ_API_KEY not set in .env file" ;;
          Exit 1
        else
          let clerkApiKey := Getenv env "CLERK_API_KEY" in
          if String.eqb clerkApiKey "" then
            logMessage Error "CLERK_API_KEY not set in .env file" ;;
            Exit 1
          else
            (* clerk.SetKey(clerkApiKey) *)
            logMessage Info "Starting server on :8080" ;;
            ListenAndServe "0.0.0.0:8080" ["POST /transcribe"; "POST /summarize"]
              {| assemblyApiKey := assemblyApiKey; groqApiKey := groqApiKey;
                 clerkApiKey := clerkApiKey |}
              listen_fault ;;
            value (Exited 0)
  end.

End Start.
End Boot4.

(** A process started from a .env file and an environment: how [main]
    ends and what it printed. *)
Definition start {K} (main : Go (Process K) (Process K)) : Completion unit (Process K) * St :=
  call (R := unit) main (boot ∅).

(** The environment [main] reads its keys from. *)
Definition loaded (dotenv : error + gmap string string) (environ : gmap string string)
    : gmap string string :=
  match Load dotenv environ with
  | inl _ => ∅
  | inr env => env
  end.

(** What a serving process of src/go.mod does with a request. *)
Definition dispatch (W : World) (p : Process Keys) (pattern : string) (r : Request)
    (disk : gmap string string) : option (Completion unit unit * St) :=
  match p with
  | Exited _ => None
  | Serving _ patterns keys =>
      if existsb (String.eqb pattern) patterns then
        match Rev4.mux W (assemblyApiKey keys) (groqApiKey keys) pattern with
        | Some h => Some (serve h r disk)
        | None => None
        end
      else None
  end.

(** The keys are all there: the .env file loads and the three variables
    are set to something. *)
Definition configured (dotenv : error + gmap string string)
    (environ : gmap string string) : bool :=
  match dotenv with
  | inl _ => false
  | inr _ =>
      negb (String.eqb (Getenv (loaded dotenv environ) "ASSEMBLY_API_KEY") "")
      && negb (String.eqb (Getenv (loaded dotenv environ) "GROQ_API_KEY") "")
      && negb (String.eqb (Getenv (loaded dotenv environ) "CLERK_API_KEY") "")
  end.

Definition env_keys (env : gmap string string) : Keys :=
  {| assemblyApiKey := Getenv env "ASSEMBLY_API_KEY";
     groqApiKey := Getenv env "GROQ_API_KEY";
     clerkApiKey := Getenv env "CLERK_API_KEY" |}.

(** * More sample worlds and requests *)

Module SampleFaults.

(** The request of an allowed user whose form holds no file. *)
Definition no_file : Request :=
  {| ctx_claims := Some {| Subject := "user_1" |};
     RHeader := [];
     multipart := inr [];
     Body := "" |}.

(** The request of an allowed user whose body is not JSON. *)
Definition not_json : Request := Sample.request (Some "user_1") "lecture on integrals".

Definition disk_full : World :=
  with_faults Sample.W (inl "no space left on device") None None.

Definition short_write : World :=
  with_faults Sample.W (inr "/tmp/upload-2914.tmp") (Some (4%nat, "short write")) None.

Definition provider_down : World :=
  with_faults Sample.W (inr "/tmp/upload-2914.tmp") None (Some "unable to upload file").

(** The world [W] with the steps of the completion client answering as
    given. *)
Definition with_client (W : World) (marshal : error + string)
    (reply : error + (Z * (error + string))) (unmarshal : error + list Choice) : World :=
  {| user_Get := user_Get W;
     os_CreateTemp := os_CreateTemp W;
     io_Copy_fault := io_Copy_fault W;
     aai_TranscribeFromReader := aai_TranscribeFromReader W;
     http_Do := fun _ => reply;
     json_Marshal := fun _ => marshal;
     json_Unmarshal := fun _ => unmarshal;
     json_Decode := json_Decode W;
     fmt_v_Header := fmt_v_Header W;
     fmt_v_ClientRequest := fmt_v_ClientRequest W;
     fmt_s_ReadCloser := fmt_s_ReadCloser W |}.

(** A .env file with the three keys. *)
Definition dotenv : gmap string string :=
  {[ "ASSEMBLY_API_KEY" := "aai-key"; "GROQ_API_KEY" := "gsk-key";
     "CLERK_API_KEY" := "sk-key" ]}.

(** A file system that lets every file be created, and one that lets
    none. *)
Definition writable (name : string) : option error := None.
Definition read_only (name : string) : option error := Some "read-only file system".

End SampleFaults.

(** * The sanitizer *)

Lemma append_cons (x : ascii) (a b : string) :
  String x a +:+ b = String x (a +:+ b).
Proof. reflexivity. Qed.

Lemma append_assoc (a b c : string) : (a +:+ b) +:+ c = a +:+ (b +:+ c).
Proof.
  induction a as [|x a IH]; [reflexivity|].
  now rewrite !append_cons, IH.
Qed.

Lemma length_append (a b : string) :
  String.length (a +:+ b) = (String.length a + String.length b)%nat.
Proof.
  induction a as [|x a IH]; [reflexivity|].
  rewrite append_cons. simpl. now rewrite IH.
Qed.

Lemma ReplaceAll_append (s t : string) (old : ascii) (new : string) :
  ReplaceAll (s +:+ t) old new = ReplaceAll s old new +:+ ReplaceAll t old new.
Proof.
  induction s as [|c s IH]; [reflexivity|].
  rewrite append_cons. simpl.
  destruct (Ascii.eqb c old); rewrite IH; [symmetry; apply append_assoc | reflexivity].
Qed.

Lemma ReplaceAllString_append (re : CharClass) (s t repl : string) :
  ReplaceAllString re (s +:+ t) repl
  = ReplaceAllString re s repl +:+ ReplaceAllString re t repl.
Proof.
  induction s as [|c s IH]; [reflexivity|].
  rewrite append_cons. simpl.
  destruct (class_match re c); rewrite IH; [symmetry; apply append_assoc | reflexivity].
Qed.

(** The sanitizer works byte by byte. *)
Lemma sanitizeInput_append (s t : string) :
  sanitizeInput (s +:+ t) = sanitizeInput s +:+ sanitizeInput t.
Proof.
  unfold sanitizeInput.
  now rewrite !ReplaceAll_append, ReplaceAllString_append.
Qed.

Lemma sanitizeInput_cons (c : ascii) (s : string) :
  sanitizeInput (String c s) = sanitizeInput (str1 c) +:+ sanitizeInput s.
Proof. exact (sanitizeInput_append (str1 c) s). Qed.

Lemma sanitize_byte_twice_fixed (c : ascii) :
  is_escaped c = false ->
  sanitizeInput (sanitizeInput (str1 c)) = sanitizeInput (str1 c).
Proof. destruct c as [[] [] [] [] [] [] [] []]; vm_compute; first [reflexivity | discriminate]. Qed.

Lemma sanitize_byte_twice_length (c : ascii) :
  (String.length (sanitizeInput (str1 c))
   + (if is_escaped c then 1 else 0)
   <= String.length (sanitizeInput (sanitizeInput (str1 c))))%nat.
Proof. destruct c as [[] [] [] [] [] [] [] []]; vm_compute; lia. Qed.

Lemma sanitize_twice_length (s : string) :
  (String.length (sanitizeInput s) + (if has_byte is_escaped s then 1 else 0)
   <= String.length (sanitizeInput (sanitizeInput s)))%nat.
Proof.
  induction s as [|c s IH]; [vm_compute; lia|].
  rewrite sanitizeInput_cons, sanitizeInput_append, !length_append.
  pose proof (sanitize_byte_twice_length c) as Hc.
  cbn [has_byte]. destruct (is_escaped c), (has_byte is_escaped s); simpl in *; lia.
Qed.

Lemma sanitize_twice_fixed (s : string) :
  has_byte is_escaped s = false ->
  sanitizeInput (sanitizeInput s) = sanitizeInput s.
Proof.
  induction s as [|c s IH]; [reflexivity|].
  cbn [has_byte]. intros H. apply orb_false_iff in H as [Hc Hs].
  rewrite sanitizeInput_cons, sanitizeInput_append.
  now rewrite (sanitize_byte_twice_fixed c Hc), (IH Hs).
Qed.

(** C2, as the spec states it, fails at a lone backslash: the second
    pass escapes the escape of the first. *)
Lemma sanitizeInput_not_idempotent :
  sanitizeInput (sanitizeInput (str1 bs)) <> sanitizeInput (str1 bs).
Proof. vm_compute. discriminate. Qed.

(** C2, amended: a second pass of the sanitizer changes nothing exactly
    when the input has none of the five bytes the sanitizer escapes
    (backslash, newline, tab, carriage return, form feed); on any other
    input the second pass yields a strictly longer text. *)
Theorem sanitizeInput_idempotent_iff (s : string) :
  (sanitizeInput (sanitizeInput s) = sanitizeInput s
   <-> has_byte is_escaped s = false)
  /\ (has_byte is_escaped s = true ->
      (String.length (sanitizeInput s)
       < String.length (sanitizeInput (sanitizeInput s)))%nat).
Proof.
  pose proof (sanitize_twice_length s) as L. split.
  - split; [|apply sanitize_twice_fixed].
    intros H. rewrite H in L.
    destruct (has_byte is_escaped s); [lia | reflexivity].
  - intros H. rewrite H in L. lia.
Qed.

Lemma sanitizeInput_idempotent_iff_witness :
  (String.length (sanitizeInput SampleText.path)
   < String.length (sanitizeInput (sanitizeInput SampleText.path)))%nat.
Proof.
  apply (proj2 (sanitizeInput_idempotent_iff SampleText.path)). reflexivity.
Defined.

(** What the sanitizer does to one byte, after which the rest reads on. *)
Lemma json_string_content_sanitized_byte (c : ascii) (t : string) :
  json_string_content (sanitizeInput (str1 c) +:+ t)
  = negb (Ascii.eqb c dq) && json_string_content t.
Proof. destruct c as [[] [] [] [] [] [] [] []]; reflexivity. Qed.

(** The sanitized text is string content exactly when the input has no
    double quote. *)
Lemma json_string_content_sanitizeInput (s : string) :
  json_string_content (sanitizeInput s) = negb (has_byte (Ascii.eqb dq) s).
Proof.
  induction s as [|c s IH]; [reflexivity|].
  rewrite sanitizeInput_cons, json_string_content_sanitized_byte, IH.
  cbn [has_byte]. rewrite (Ascii.eqb_sym dq c). now rewrite negb_orb.
Qed.

(** * Running the handlers symbolically *)

Lemma files_insert_eq (m : gmap string string) (k v : string) :
  <[k:=v]> m !! k = Some v.
Proof. apply lookup_insert_eq. Qed.

Lemma fds_insert_eq (m : gmap nat Stream) (k : nat) (v : Stream) :
  <[k:=v]> m !! k = Some v.
Proof. apply lookup_insert_eq. Qed.

Lemma fds_insert_ne (m : gmap nat Stream) (j k : nat) (v : Stream) :
  j <> k -> <[j:=v]> m !! k = m !! k.
Proof. apply lookup_insert_ne. Qed.

Lemma fds_empty (k : nat) : (∅ : gmap nat Stream) !! k = None.
Proof. apply lookup_empty. Qed.

Lemma append_nil_l (s : string) : "" +:+ s = s.
Proof. reflexivity. Qed.

(** Unfolds the statements and the library calls, leaving strings, maps
    and the world's answers as they are. *)
Ltac run_cbv :=
  cbv [bind bind_after value return_ panic modify call finish_call deref defer_Close run_deferred Close
       set_w set_stdout set_files set_fds set_next_fd set_deferred emit
       w stdout files fds next_fd trace deferred
       w_header w_status w_sent w_body fd Name StatusCode RespBody
       Method URL ReqHeader ReqBody
       Printf WriteHeader Write Fprintln Header_Set Header_Del http_Error
       write_header write_body set_header open_stream read_stream
       FormFile CreateTemp append_to Copy Open TranscribeFromReader
       NewRequest ReqHeader_Set Do ReadAll Get
       logMessage Info Error String.eqb Ascii.eqb Bool.eqb
       fst snd fold_left app default from_option id negb
       boot fresh_writer after_auth serve].

Ltac run_maps :=
  repeat first
    [ rewrite files_insert_eq
    | rewrite fds_insert_eq
    | rewrite fds_insert_ne by (intro; discriminate)
    | rewrite fds_empty
    | rewrite append_nil_l ].

(** Replaces the world's answers by what the hypotheses say of them. *)
Ltac use_answers :=
  repeat match goal with
         | H : ?call = _ |- context [?call] => rewrite H
         end.

Ltac maps_if_any :=
  lazymatch goal with
  | |- context [lookup _ _] => run_maps
  | _ => idtac
  end.

Ltac answers_if_stuck :=
  lazymatch goal with
  | |- (_, _) = _ => idtac
  | _ => use_answers
  end.

(** Running one statement at a time keeps what follows it folded. *)
Lemma bind_eval {R A B} (m : Go R A) (k : A -> Go R B) (s : St)
    (res : Completion R A * St) :
  m s = res -> bind m k s = bind_after res k.
Proof. intros <-. reflexivity. Qed.

Lemma bind_call {R A B} (body : Go A A) (k : A -> Go R B) (s : St) :
  bind (call body) k s
  = bind_after (finish_call (deferred s) (body (set_deferred (fun _ => []) s))) k.
Proof. reflexivity. Qed.

Lemma finish_eval {R A} (saved : list File) (res : Completion A A * St)
    (v : Completion R A * St) :
  finish_call saved res = v -> finish_call saved res = v.
Proof. exact (fun H => H). Qed.

Ltac eval_small :=
  run_cbv;
  repeat (progress (maps_if_any; answers_if_stuck); run_cbv);
  lazymatch goal with
  | |- (_, _) = _ => reflexivity
  end.

Ltac tidy :=
  use_answers;
  cbn [bind_after default from_option id NewRequest ReqHeader_Set
       StatusCode RespBody String.eqb Ascii.eqb Bool.eqb];
  use_answers;
  cbn [negb Z.eqb Pos.eqb StatusOK].

(** The answers that do not depend on the state go into the program
    text once, before it runs. *)
Ltac settle_answers :=
  unfold Get, FormFile, CreateTemp, Copy;
  repeat match goal with
         | H : ?call = _ |- context [?call] => rewrite H; clear H
         end.

Ltac step :=
  first
    [ lazymatch goal with
      | |- context [bind (call ?body) ?k ?s] => rewrite (bind_call body k s)
      end
    | lazymatch goal with
      | |- context [bind ?m ?k ?s] => erewrite (bind_eval m k s) by eval_small
      end
    | lazymatch goal with
      | |- context [bind_after (finish_call ?saved ?res) ?k] =>
          lazymatch res with
          | context [@bind] => fail
          | _ => erewrite (finish_eval saved res) by eval_small
          end
      end
    | lazymatch goal with
      | |- context [finish_call ?saved ?res] =>
          lazymatch res with
          | context [@bind] => fail
          | _ => erewrite (finish_eval saved res) by eval_small
          end
      end
    ];
  tidy.

Ltac steps_here := unfold serve, call; settle_answers; tidy; repeat step.

(** Runs the handler of the goal once, whatever the number of times the
    goal mentions the run. *)
Ltac steps :=
  lazymatch goal with
  | |- context [serve ?h ?r ?d] =>
      let E := fresh "E" in
      eassert (E : serve h r d = _);
      [ steps_here; reflexivity | rewrite E; clear E ]
  | |- context [call ?body ?s] =>
      let E := fresh "E" in
      eassert (E : call body s = _);
      [ steps_here; reflexivity | rewrite E; clear E ]
  end.

Lemma auth_state_Allowed (W : World) (r : Request) :
  auth_state W r = Allowed ->
  exists claims usr,
    ctx_claims r = Some claims
    /\ user_Get W (Subject claims) = inr usr
    /\ Banned usr = false.
Proof.
  unfold auth_state. destruct (ctx_claims r) as [claims|]; [|discriminate].
  destruct (user_Get W (Subject claims)) as [err|usr] eqn:G; [discriminate|].
  destruct (Banned usr) eqn:B; [discriminate|].
  intros _. exists claims, usr. auto.
Qed.

Lemma upload_of_Some (r : Request) (p : Part) :
  upload_of r = Some p ->
  exists parts, multipart r = inr parts /\ find_part "uploadfile" parts = Some p.
Proof.
  unfold upload_of. destruct (multipart r) as [err|parts]; [discriminate|].
  intros H. exists parts. auto.
Qed.

(** * The session check *)

Ltac session_check :=
  intros; unfold auth_prelude_ok;
  destruct (ctx_claims _) as [claims|] eqn:Hclaims;
    [ destruct (user_Get _ (Subject claims)) as [err|usr] eqn:Hget;
      [ | destruct (Banned usr) eqn:Hban ] | ];
  cbv beta iota; unfold serve;
  lazymatch goal with
  | |- replied _ _ _ _ =>
      unfold replied; steps_here; repeat apply conj; vm_compute; eauto
  | |- _ = _ => steps_here; reflexivity
  end.

Lemma session_check_Rev4_upload W k r disk :
  auth_prelude_ok W (Rev4.uploadHandler W k) (Rev4.uploadHandler_rest W k) r disk.
Proof. unfold Rev4.uploadHandler. session_check. Qed.

Lemma session_check_Rev4_summary W g r disk :
  auth_prelude_ok W (Rev4.handleSummaryRequest W g)
    (Rev4.handleSummaryRequest_rest W g) r disk.
Proof. unfold Rev4.handleSummaryRequest. session_check. Qed.

Lemma session_check_Rev3_upload W k r disk :
  auth_prelude_ok W (Rev3.uploadHandler W k) (Rev3.uploadHandler_rest W k) r disk.
Proof. unfold Rev3.uploadHandler. session_check. Qed.

(** C4: on every protected route (POST /transcribe and POST /summarize of
    src/go.mod, POST /transcribe of part_001) the session check answers
    401 with the JSON body {access: unauthorized} when the request has no
    session claims, 500 with {access: internal server error} when the
    user lookup fails, 403 with {access: forbidden} when the user is
    banned, and in each of these cases returns at once, having made no
    call but the lookup; otherwise the run is the run of the rest of the
    handler, entered with nothing written.  The bytes written have a
    space after the colon; they read as the JSON text of the spec. *)
Theorem auth_prelude_responses (W : World) (k g : string) (r : Request)
    (disk : gmap string string) :
  auth_prelude_ok W (Rev4.uploadHandler W k) (Rev4.uploadHandler_rest W k) r disk
  /\ auth_prelude_ok W (Rev4.handleSummaryRequest W g)
       (Rev4.handleSummaryRequest_rest W g) r disk
  /\ auth_prelude_ok W (Rev3.uploadHandler W k) (Rev3.uploadHandler_rest W k) r disk.
Proof.
  split; [apply session_check_Rev4_upload|].
  split; [apply session_check_Rev4_summary | apply session_check_Rev3_upload].
Qed.

(** The session check against section 4.1 of the spec, state by state. *)
Lemma session_check_refines_spec (W : World) (h rest : Request -> Go unit unit)
    (r : Request) (disk : gmap string string) :
  auth_prelude_ok W h rest r disk ->
  match auth_middleware_spec (auth_state W r) with
  | Some (code, doc) =>
      w_status (w (serve h r disk).2) = Some code
      /\ json_flat_object (w_body (w (serve h r disk).2)) = json_flat_object doc
  | None =>
      exists claims usr,
        serve h r disk = call (R := unit) (rest r) (after_auth claims usr disk)
  end.
Proof.
  unfold auth_prelude_ok, auth_state.
  destruct (ctx_claims r) as [claims|];
    [destruct (user_Get W (Subject claims)) as [err|usr]; [|destruct (Banned usr)]|];
    cbv beta iota; unfold auth_middleware_spec.
  - intros (_ & S & B & _ & J & _). rewrite B. auto.
  - intros (_ & S & B & _ & J & _). rewrite B. auto.
  - intros E. exists claims, usr. exact E.
  - intros (_ & S & B & _ & J & _). rewrite B. auto.
Qed.

(** C9: the session check of the transcribe handler and that of the
    summarize handler behave alike.  In the same rejecting state (no
    claims, lookup failed, banned), whatever else differs between the
    two requests and worlds, both return with the same status code and
    the same body; when the user is let through, both hand the same
    state, with nothing written, to the rest of their handler. *)
Theorem auth_check_identical (k g : string) :
  (forall (W1 W2 : World) (r1 r2 : Request) (d1 d2 : gmap string string),
      auth_state W1 r1 = auth_state W2 r2 ->
      auth_state W1 r1 <> Allowed ->
      (serve (Rev4.uploadHandler W1 k) r1 d1).1
      = (serve (Rev4.handleSummaryRequest W2 g) r2 d2).1
      /\ w_status (w (serve (Rev4.uploadHandler W1 k) r1 d1).2)
         = w_status (w (serve (Rev4.handleSummaryRequest W2 g) r2 d2).2)
      /\ w_body (w (serve (Rev4.uploadHandler W1 k) r1 d1).2)
         = w_body (w (serve (Rev4.handleSummaryRequest W2 g) r2 d2).2))
  /\ (forall (W : World) (r : Request) (d : gmap string string),
      auth_state W r = Allowed ->
      exists s : St,
        w s = fresh_writer
        /\ serve (Rev4.uploadHandler W k) r d
           = call (R := unit) (Rev4.uploadHandler_rest W k r) s
        /\ serve (Rev4.handleSummaryRequest W g) r d
           = call (R := unit) (Rev4.handleSummaryRequest_rest W g r) s).
Proof.
  split.
  - intros W1 W2 r1 r2 d1 d2 Heq Hne.
    pose proof (session_check_Rev4_upload W1 k r1 d1) as U.
    pose proof (session_check_Rev4_summary W2 g r2 d2) as S.
    unfold auth_prelude_ok, auth_state in *.
    destruct (ctx_claims r1) as [c1|];
      [destruct (user_Get W1 (Subject c1)) as [e1|u1]; [|destruct (Banned u1)]|];
      (destruct (ctx_claims r2) as [c2|];
       [destruct (user_Get W2 (Subject c2)) as [e2|u2]; [|destruct (Banned u2)]|]);
      try discriminate Heq; try (exfalso; apply Hne; reflexivity);
      destruct U as (U1 & U2 & U3 & _), S as (S1 & S2 & S3 & _);
      rewrite U1, S1, U2, S2, U3, S3; auto.
  - intros W r d HA.
    pose proof (session_check_Rev4_upload W k r d) as U.
    pose proof (session_check_Rev4_summary W g r d) as S.
    destruct (auth_state_Allowed W r HA) as (claims & usr & Hc & Hu & Hb).
    unfold auth_prelude_ok in *. rewrite Hc, Hu, Hb in U, S.
    exists (after_auth claims usr d). auto.
Qed.

Lemma auth_check_identical_witness :
  ((serve (Rev4.uploadHandler Sample.W "k") (Sample.request None "") ∅).1
   = (serve (Rev4.handleSummaryRequest Sample.W "g") (Sample.request None "{}") ∅).1
   /\ w_status (w (serve (Rev4.uploadHandler Sample.W "k") (Sample.request None "") ∅).2)
      = w_status (w (serve (Rev4.handleSummaryRequest Sample.W "g")
                       (Sample.request None "{}") ∅).2)
   /\ w_body (w (serve (Rev4.uploadHandler Sample.W "k") (Sample.request None "") ∅).2)
      = w_body (w (serve (Rev4.handleSummaryRequest Sample.W "g")
                     (Sample.request None "{}") ∅).2))
  /\ (exists s : St,
        w s = fresh_writer
        /\ serve (Rev4.uploadHandler Sample.W "k") Sample.r ∅
           = call (R := unit) (Rev4.uploadHandler_rest Sample.W "k" Sample.r) s
        /\ serve (Rev4.handleSummaryRequest Sample.W "g") Sample.r ∅
           = call (R := unit) (Rev4.handleSummaryRequest_rest Sample.W "g" Sample.r) s).
Proof.
  split.
  - apply (proj1 (auth_check_identical "k" "g")
             Sample.W Sample.W (Sample.request None "") (Sample.request None "{}") ∅ ∅);
      [reflexivity | discriminate].
  - apply (proj2 (auth_check_identical "k" "g") Sample.W Sample.r ∅). reflexivity.
Defined.

(** The routes of src/go.mod lead to the two handlers above and to
    nothing else. *)
Lemma mux_routes (W : World) (k g pattern : string) (h : Request -> Go unit unit) :
  Rev4.mux W k g pattern = Some h ->
  h = Rev4.uploadHandler W k \/ h = Rev4.handleSummaryRequest W g.
Proof.
  unfold Rev4.mux.
  destruct (String.eqb pattern "POST /transcribe"); [intros [= <-]; now left|].
  destruct (String.eqb pattern "POST /summarize"); [intros [= <-]; now right|].
  discriminate.
Qed.

(** * The upload handler *)

Ltac enter :=
  repeat match goal with
         | H : auth_state _ _ = Allowed |- _ =>
             destruct (auth_state_Allowed _ _ H) as (?claims & ?usr & ? & ? & ?);
             clear H
         | H : upload_of _ = Some _ |- _ =>
             destruct (upload_of_Some _ _ H) as (?parts & ? & ?); clear H
         end;
  unfold Rev4.uploadHandler, Rev4.uploadHandler_rest, Rev4.sendToAssemblyAI,
    Rev3.uploadHandler, Rev3.uploadHandler_rest, Rev3.sendToAssemblyAI,
    Rev2.uploadHandler, Rev2.sendToAssemblyAI,
    Rev4.handleSummaryRequest, Rev4.handleSummaryRequest_rest, Rev4.getAIResponse.

Ltac finish :=
  run_cbv; run_maps; repeat apply conj; try (vm_compute; reflexivity); eauto.

(** The outcomes of the calls the upload makes, in the order it makes
    them; one goal per path through the handler. *)
Ltac split_upload W k r params :=
  destruct (multipart r) as [?|parts] eqn:?;
  [ | destruct (find_part "uploadfile" parts) as [p|] eqn:?;
      [ destruct (os_CreateTemp W "" "upload-*.tmp") as [?|name] eqn:?;
        [ | destruct (io_Copy_fault W) as [[? ?]|] eqn:?;
            [ | destruct (aai_TranscribeFromReader W k (part_content p) params)
                  as [?|tr] eqn:?;
                [ | destruct (Text tr) as [?|] eqn:? ] ] ]
      | ] ].

Ltac split_session W r :=
  destruct (ctx_claims r) as [claims|] eqn:?;
  [ destruct (user_Get W (Subject claims)) as [?|usr] eqn:?;
    [ | destruct (Banned usr) eqn:? ]
  | ].

Ltac split_after_temp W k p params :=
  destruct (io_Copy_fault W) as [[? ?]|] eqn:?;
  [ | destruct (aai_TranscribeFromReader W k (part_content p) params)
        as [?|tr] eqn:?;
      [ | destruct (Text tr) as [?|] eqn:? ] ].

Lemma temp_file_Rev4 W k r disk p name :
  auth_state W r = Allowed ->
  upload_of r = Some p ->
  os_CreateTemp W "" "upload-*.tmp" = inr name ->
  fds (serve (Rev4.uploadHandler W k) r disk).2 = ∅
  /\ temp_file_closed_kept (serve (Rev4.uploadHandler W k) r disk).2
       {| fd := 4; Name := name |}.
Proof.
  intros HA HU HT. unfold temp_file_closed_kept.
  split_after_temp W k p ({| Punctuate := Some true; FormatText := Some true |});
    enter; steps; finish.
Qed.

Lemma temp_file_Rev2 W k r disk p name :
  upload_of r = Some p ->
  os_CreateTemp W "" "upload-*.tmp" = inr name ->
  fds (serve (Rev2.uploadHandler W k) r disk).2 = ∅
  /\ temp_file_closed_kept (serve (Rev2.uploadHandler W k) r disk).2
       {| fd := 4; Name := name |}.
Proof.
  intros HU HT. unfold temp_file_closed_kept.
  split_after_temp W k p ({| Punctuate := None; FormatText := None |});
    enter; steps; finish.
Qed.

(** C3, as the spec states it, fails on the success path: the handler
    returns with the temporary file still on disk. *)
Lemma temp_file_not_removed :
  ~ temp_file_released (serve (Rev4.uploadHandler Sample.W "key") Sample.r ∅).2
      {| fd := 4; Name := "/tmp/upload-2914.tmp" |}.
Proof. vm_compute. intros [_ H]. discriminate H. Qed.

(** C3, amended: on every exit path of the upload handler after the
    temporary file has been created (copy failure, transcription
    failure, nil transcript text, success), in src/go.mod and in
    src/main.go alike, the temporary file is closed before the handler
    returns, as is every other descriptor the request opened, and the
    file is still on disk: nothing removes it. *)
Theorem temp_file_closed_not_removed :
  (forall (W : World) (k : string) (r : Request) (disk : gmap string string)
          (p : Part) (name : string),
      auth_state W r = Allowed ->
      upload_of r = Some p ->
      os_CreateTemp W "" "upload-*.tmp" = inr name ->
      fds (serve (Rev4.uploadHandler W k) r disk).2 = ∅
      /\ temp_file_closed_kept (serve (Rev4.uploadHandler W k) r disk).2
           {| fd := 4; Name := name |})
  /\ (forall (W : World) (k : string) (r : Request) (disk : gmap string string)
             (p : Part) (name : string),
      upload_of r = Some p ->
      os_CreateTemp W "" "upload-*.tmp" = inr name ->
      fds (serve (Rev2.uploadHandler W k) r disk).2 = ∅
      /\ temp_file_closed_kept (serve (Rev2.uploadHandler W k) r disk).2
           {| fd := 4; Name := name |}).
Proof.
  split; intros; [eapply temp_file_Rev4 | eapply temp_file_Rev2]; eassumption.
Qed.

Lemma temp_file_closed_not_removed_witness :
  (fds (serve (Rev4.uploadHandler Sample.W "key") Sample.r ∅).2 = ∅
   /\ temp_file_closed_kept (serve (Rev4.uploadHandler Sample.W "key") Sample.r ∅).2
        {| fd := 4; Name := "/tmp/upload-2914.tmp" |})
  /\ (fds (serve (Rev2.uploadHandler Sample.W "key") Sample.r ∅).2 = ∅
      /\ temp_file_closed_kept (serve (Rev2.uploadHandler Sample.W "key") Sample.r ∅).2
           {| fd := 4; Name := "/tmp/upload-2914.tmp" |}).
Proof.
  split.
  - apply (proj1 temp_file_closed_not_removed Sample.W "key" Sample.r ∅ Sample.wav);
      reflexivity.
  - apply (proj2 temp_file_closed_not_removed Sample.W "key" Sample.r ∅ Sample.wav);
      reflexivity.
Defined.

(** ** The transcript text *)

Lemma nil_text_Rev4 W k r disk p name tr :
  auth_state W r = Allowed ->
  upload_of r = Some p ->
  os_CreateTemp W "" "upload-*.tmp" = inr name ->
  io_Copy_fault W = None ->
  aai_TranscribeFromReader W k (part_content p)
    {| Punctuate := Some true; FormatText := Some true |} = inr tr ->
  Text tr = None ->
  (serve (Rev4.uploadHandler W k) r disk).1 = Panic nil_dereference
  /\ w (serve (Rev4.uploadHandler W k) r disk).2 = fresh_writer.
Proof. intros. enter. steps. finish. Qed.

Lemma nil_text_Rev2 W k r disk p name tr :
  upload_of r = Some p ->
  os_CreateTemp W "" "upload-*.tmp" = inr name ->
  io_Copy_fault W = None ->
  aai_TranscribeFromReader W k (part_content p)
    {| Punctuate := None; FormatText := None |} = inr tr ->
  Text tr = None ->
  (serve (Rev2.uploadHandler W k) r disk).1 = Panic nil_dereference
  /\ w (serve (Rev2.uploadHandler W k) r disk).2 = fresh_writer.
Proof. intros. enter. steps. finish. Qed.

(** C10: when the provider call succeeds with a transcript whose Text
    pointer is nil, the success path of the upload handler (src/go.mod
    and src/main.go) produces no value: the dereference panics with the
    nil-pointer runtime error, before anything is written to the
    response. *)
Theorem nil_transcript_text_panics :
  (forall (W : World) (k : string) (r : Request) (disk : gmap string string)
          (p : Part) (name : string) (tr : Transcript),
      auth_state W r = Allowed ->
      upload_of r = Some p ->
      os_CreateTemp W "" "upload-*.tmp" = inr name ->
      io_Copy_fault W = None ->
      aai_TranscribeFromReader W k (part_content p)
        {| Punctuate := Some true; FormatText := Some true |} = inr tr ->
      Text tr = None ->
      (serve (Rev4.uploadHandler W k) r disk).1 = Panic nil_dereference
      /\ w (serve (Rev4.uploadHandler W k) r disk).2 = fresh_writer)
  /\ (forall (W : World) (k : string) (r : Request) (disk : gmap string string)
             (p : Part) (name : string) (tr : Transcript),
      upload_of r = Some p ->
      os_CreateTemp W "" "upload-*.tmp" = inr name ->
      io_Copy_fault W = None ->
      aai_TranscribeFromReader W k (part_content p)
        {| Punctuate := None; FormatText := None |} = inr tr ->
      Text tr = None ->
      (serve (Rev2.uploadHandler W k) r disk).1 = Panic nil_dereference
      /\ w (serve (Rev2.uploadHandler W k) r disk).2 = fresh_writer).
Proof.
  split; intros; [eapply nil_text_Rev4 | eapply nil_text_Rev2]; eassumption.
Qed.

Lemma nil_transcript_text_panics_witness :
  ((serve (Rev4.uploadHandler (Sample.world None [] 200) "key") Sample.r ∅).1
   = Panic nil_dereference
   /\ w (serve (Rev4.uploadHandler (Sample.world None [] 200) "key") Sample.r ∅).2
      = fresh_writer)
  /\ ((serve (Rev2.uploadHandler (Sample.world None [] 200) "key") Sample.r ∅).1
      = Panic nil_dereference
      /\ w (serve (Rev2.uploadHandler (Sample.world None [] 200) "key") Sample.r ∅).2
         = fresh_writer).
Proof.
  split.
  - apply (proj1 nil_transcript_text_panics (Sample.world None [] 200) "key"
             Sample.r ∅ Sample.wav "/tmp/upload-2914.tmp" {| Text := None |});
      reflexivity.
  - apply (proj2 nil_transcript_text_panics (Sample.world None [] 200) "key"
             Sample.r ∅ Sample.wav "/tmp/upload-2914.tmp" {| Text := None |});
      reflexivity.
Defined.

(** The success path of the upload handler: status 200 and the text
    spliced, byte for byte, between the two halves of the literal. *)
Lemma transcribe_success_Rev4 W k r disk p name tr text :
  auth_state W r = Allowed ->
  upload_of r = Some p ->
  os_CreateTemp W "" "upload-*.tmp" = inr name ->
  io_Copy_fault W = None ->
  aai_TranscribeFromReader W k (part_content p)
    {| Punctuate := Some true; FormatText := Some true |} = inr tr ->
  Text tr = Some text ->
  (serve (Rev4.uploadHandler W k) r disk).1 = Next tt
  /\ w_status (w (serve (Rev4.uploadHandler W k) r disk).2) = Some 200%Z
  /\ w_body (w (serve (Rev4.uploadHandler W k) r disk).2)
     = (lit "{'status': 'success', 'transcript': '" +:+ text +:+ lit "'}") +:+ str1 nl.
Proof. intros. enter. steps. finish. Qed.

Lemma transcribe_success_Rev2 W k r disk p name tr text :
  upload_of r = Some p ->
  os_CreateTemp W "" "upload-*.tmp" = inr name ->
  io_Copy_fault W = None ->
  aai_TranscribeFromReader W k (part_content p)
    {| Punctuate := None; FormatText := None |} = inr tr ->
  Text tr = Some text ->
  (serve (Rev2.uploadHandler W k) r disk).1 = Next tt
  /\ w_status (w (serve (Rev2.uploadHandler W k) r disk).2) = Some 200%Z
  /\ w_body (w (serve (Rev2.uploadHandler W k) r disk).2)
     = (lit "{'status': 'success', 'transcript': '" +:+ text +:+ lit "'}") +:+ str1 nl.
Proof. intros. enter. steps. finish. Qed.

(** A text of plain bytes between the quotes reads back as itself. *)
Lemma json_read_plain (text rest : string) :
  all_bytes is_plain text = true ->
  json_read_string (text +:+ String dq rest) = Some (text, rest).
Proof.
  induction text as [|c text IH]; [reflexivity|].
  cbn [all_bytes]. intros H. apply andb_true_iff in H as [Hc Ht].
  rewrite append_cons. cbn [json_read_string]. rewrite (IH Ht).
  unfold is_plain in Hc.
  apply andb_true_iff in Hc as [Hc H32]. apply andb_true_iff in Hc as [Hq Hb].
  apply negb_true_iff in Hq, Hb. rewrite Hq, Hb.
  apply Nat.leb_le in H32.
  destruct (nat_of_ascii c <? 32)%nat eqn:E; [apply Nat.ltb_lt in E; lia | reflexivity].
Qed.

(** The first end-to-end scenario of the spec. *)
Example transcribe_scenario :
  let run := serve (Rev4.uploadHandler Sample.W "key") Sample.r ∅ in
  w_status (w run.2) = Some 200%Z
  /\ w_body (w run.2)
     = lit "{'status': 'success', 'transcript': 'hello world'}" +:+ str1 nl
  /\ json_flat_object (w_body (w run.2))
     = json_flat_object (lit "{'status':'success','transcript':'hello world'}")
  /\ transcript_field (w_body (w run.2)) = Some "hello world".
Proof. vm_compute. repeat split. Qed.

(** C5 at a transcript of two lines, and at one that holds a backslash:
    the upload handler answers 200, but the line feed goes raw into the
    string literal, so the body is not JSON and has no transcript
    member; the backslash and the letter after it are read back by any
    JSON reader as one line feed, so the member differs from the text.
    The summarize handler passes its text through sanitizeInput before
    the same splice; the same texts sanitized give a body whose member
    is the text. *)
Theorem transcript_spliced_unescaped :
  let run t := serve (Rev4.uploadHandler (Sample.world (Some t) [] 200) "key") Sample.r ∅ in
  let sanitized t :=
    lit "{'status': 'success', 'transcript': '" +:+ sanitizeInput t +:+ lit "'}" in
  ((run SampleText.two_lines).1 = Next tt
   /\ w_status (w (run SampleText.two_lines).2) = Some 200%Z
   /\ transcript_field (w_body (w (run SampleText.two_lines).2)) = None
   /\ transcript_field (sanitized SampleText.two_lines) = Some SampleText.two_lines)
  /\ ((run SampleText.path).1 = Next tt
      /\ w_status (w (run SampleText.path).2) = Some 200%Z
      /\ transcript_field (w_body (w (run SampleText.path).2))
         = Some ("C:" +:+ str1 nl +:+ "ew")
      /\ transcript_field (w_body (w (run SampleText.path).2)) <> Some SampleText.path
      /\ transcript_field (sanitized SampleText.path) = Some SampleText.path).
Proof. vm_compute. repeat split; discriminate. Qed.

(** ** The options of the transcription request *)

Lemma options_Rev4 W k r disk :
  forallb options_enabled (trace (serve (Rev4.uploadHandler W k) r disk).2) = true.
Proof.
  split_session W r;
    [ | | split_upload W k r ({| Punctuate := Some true; FormatText := Some true |}) | ];
    enter; steps; finish.
Qed.

Lemma options_Rev3 W k r disk :
  forallb options_unset (trace (serve (Rev3.uploadHandler W k) r disk).2) = true.
Proof.
  split_session W r;
    [ | | split_upload W k r ({| Punctuate := None; FormatText := None |}) | ];
    enter; steps; finish.
Qed.

Lemma options_Rev2 W k r disk :
  forallb options_unset (trace (serve (Rev2.uploadHandler W k) r disk).2) = true.
Proof.
  split_upload W k r ({| Punctuate := None; FormatText := None |});
    enter; steps; finish.
Qed.

(** C6, as the spec states it, fails in src/main.go: the request of a
    successful upload goes out with both options unset. *)
Lemma options_not_enabled_Rev2 :
  forallb options_enabled
    (trace (serve (Rev2.uploadHandler Sample.W "key") Sample.r ∅).2) = false
  /\ existsb is_transcribe
       (trace (serve (Rev2.uploadHandler Sample.W "key") Sample.r ∅).2) = true.
Proof. vm_compute. split; reflexivity. Qed.

(** C6, amended: every transcription request that the upload handler of
    src/go.mod submits carries Punctuate and FormatText set to true;
    every one that the upload handlers of src/main.go and of part_001
    submit carries neither option (both pointers nil, the provider's
    defaults apply). *)
Theorem transcription_options (W : World) (k : string) (r : Request)
    (disk : gmap string string) :
  forallb options_enabled (trace (serve (Rev4.uploadHandler W k) r disk).2) = true
  /\ forallb options_unset (trace (serve (Rev3.uploadHandler W k) r disk).2) = true
  /\ forallb options_unset (trace (serve (Rev2.uploadHandler W k) r disk).2) = true.
Proof.
  split; [apply options_Rev4|]. split; [apply options_Rev3 | apply options_Rev2].
Qed.

(** * The summarize handler and the completion client *)

Ltac split_completion W g prompt :=
  destruct (json_Marshal W (completion_payload prompt)) as [?|payloadBytes] eqn:?;
  [ | destruct (http_Do W (completion_request g payloadBytes)) as [?|[code data]] eqn:?;
      [ | destruct (code =? StatusOK)%Z eqn:?;
          [ destruct data as [?|body];
            [ | destruct (json_Unmarshal W body) as [?|[|first rest]] eqn:? ]
          | ] ] ];
  unfold completion_payload, completion_request in *.

Lemma empty_text_no_completion_call W g r disk decoded :
  json_Decode W (Body r) = inr decoded ->
  default "" decoded = "" ->
  existsb is_completion_call
    (trace (serve (Rev4.handleSummaryRequest W g) r disk).2) = false.
Proof.
  intros HD HE. destruct decoded as [t|]; cbn in HE; subst;
    split_session W r; enter; steps; finish.
Qed.

(** C7: a summarize request whose body decodes to a text member that is
    empty or missing never reaches the completion provider, whatever
    the session check decides; and once past the session check the
    handler answers 400 with the plain-text body No transcript
    provided. *)
Theorem empty_text_rejected (W : World) (g : string) (r : Request)
    (disk : gmap string string) (decoded : option string) :
  json_Decode W (Body r) = inr decoded ->
  default "" decoded = "" ->
  existsb is_completion_call
    (trace (serve (Rev4.handleSummaryRequest W g) r disk).2) = false
  /\ (auth_state W r = Allowed ->
      (serve (Rev4.handleSummaryRequest W g) r disk).1 = Next tt
      /\ w_status (w (serve (Rev4.handleSummaryRequest W g) r disk).2) = Some 400%Z
      /\ w_body (w (serve (Rev4.handleSummaryRequest W g) r disk).2)
         = "No transcript provided" +:+ str1 nl).
Proof.
  intros HD HE. split; [eapply empty_text_no_completion_call; eassumption|].
  intros HA. destruct decoded as [t|]; cbn in HE; subst; enter; steps; finish.
Qed.

Lemma empty_text_rejected_witness :
  existsb is_completion_call
    (trace (serve (Rev4.handleSummaryRequest Sample.W "g")
              (Sample.request (Some "user_1") "{}") ∅).2) = false
  /\ (serve (Rev4.handleSummaryRequest Sample.W "g")
        (Sample.request (Some "user_1") "{}") ∅).1 = Next tt
  /\ w_status (w (serve (Rev4.handleSummaryRequest Sample.W "g")
                    (Sample.request (Some "user_1") "{}") ∅).2) = Some 400%Z
  /\ w_body (w (serve (Rev4.handleSummaryRequest Sample.W "g")
                  (Sample.request (Some "user_1") "{}") ∅).2)
     = "No transcript provided" +:+ str1 nl.
Proof.
  destruct (empty_text_rejected Sample.W "g" (Sample.request (Some "user_1") "{}") ∅ None)
    as [H1 H2]; [reflexivity | reflexivity |].
  split; [exact H1 | apply H2; reflexivity].
Defined.

(** ** The summary in the response *)

Lemma json_read_sanitized_byte (c : ascii) (t : string) :
  Ascii.eqb c dq = false ->
  json_read_string (sanitizeInput (str1 c) +:+ t)
  = match json_read_string t with
    | Some (v, rest) => Some (ReplaceAllString dropped_class (str1 c) "" +:+ v, rest)
    | None => None
    end.
Proof.
  destruct c as [[] [] [] [] [] [] [] []]; intros E; try discriminate E;
    match goal with
    | |- json_read_string (?x +:+ t) = _ =>
        let y := eval vm_compute in x in change x with y
    end;
    rewrite ?append_cons, ?append_nil_l;
    cbn; destruct (json_read_string t) as [[v rest]|]; reflexivity.
Qed.

(** A text without double quote, sanitized and put between quotes, is a
    string literal; it reads back as the text less the control
    characters the sanitizer drops. *)
Lemma json_read_sanitizeInput (s rest : string) :
  has_byte (Ascii.eqb dq) s = false ->
  json_read_string (sanitizeInput s +:+ String dq rest)
  = Some (ReplaceAllString dropped_class s "", rest).
Proof.
  induction s as [|c s IH]; [reflexivity|].
  cbn [has_byte]. intros H. apply orb_false_iff in H as [Hc Hs].
  rewrite sanitizeInput_cons, append_assoc, json_read_sanitized_byte
    by (rewrite Ascii.eqb_sym; exact Hc).
  rewrite (IH Hs).
  change (String c s) with (str1 c +:+ s).
  now rewrite ReplaceAllString_append.
Qed.

(** C1 at a summary that holds double quotes: sanitizeInput returns it
    unchanged, the quotes go raw into the string literal of the
    response, the literal ends at the first of them, and the body the
    summarize handler sends with status 200 is not JSON. *)
Theorem sanitizeInput_leaves_quote :
  let W := Sample.world None [ {| Content := SampleText.quoted |} ] 200 in
  let run := serve (Rev4.handleSummaryRequest W "g") Sample.r ∅ in
  sanitizeInput SampleText.quoted = SampleText.quoted
  /\ json_string_content (sanitizeInput SampleText.quoted) = false
  /\ json_read_string (sanitizeInput SampleText.quoted +:+ lit "'}")
     = Some ("say ", "hi" +:+ lit "''}")
  /\ run.1 = Next tt
  /\ w_status (w run.2) = Some 200%Z
  /\ w_body (w run.2)
     = lit "{'status': 'success', 'summary': '" +:+ SampleText.quoted +:+ lit "'}"
  /\ json_flat_object (w_body (w run.2)) = None.
Proof. vm_compute. repeat split. Qed.

(** The second end-to-end scenario of the spec. *)
Example summarize_scenario :
  let text := "# Summary" +:+ str1 nl +:+ "- calculus" in
  let W := Sample.world None [ {| Content := text |} ] 200 in
  let run := serve (Rev4.handleSummaryRequest W "g") Sample.r ∅ in
  w_status (w run.2) = Some 200%Z
  /\ w_body (w run.2)
     = lit "{'status': 'success', 'summary': '# Summary" +:+ str1 bs +:+ lit "n- calculus'}"
  /\ summary_field (w_body (w run.2)) = Some text.
Proof. vm_compute. repeat split. Qed.

(** ** getAIResponse *)

Lemma getAIResponse_not_200 W g prompt disk payloadBytes code data :
  json_Marshal W (completion_payload prompt) = inr payloadBytes ->
  http_Do W (completion_request g payloadBytes) = inr (code, data) ->
  (code =? StatusOK)%Z = false ->
  (call (R := unit) (Rev4.getAIResponse W g prompt) (boot disk)).1
  = Next (inl (unexpected_status W code))
  /\ existsb is_body_read
       (trace (call (R := unit) (Rev4.getAIResponse W g prompt) (boot disk)).2) = false.
Proof.
  intros HM HD HC. unfold completion_payload, completion_request, unexpected_status in *.
  enter. steps. finish.
Qed.

(** A 200 response without choices. *)
Lemma getAIResponse_no_choice W g prompt disk payloadBytes body :
  json_Marshal W (completion_payload prompt) = inr payloadBytes ->
  http_Do W (completion_request g payloadBytes) = inr (200%Z, inr body) ->
  json_Unmarshal W body = inr [] ->
  (call (R := unit) (Rev4.getAIResponse W g prompt) (boot disk)).1
  = Next (inl "no response from AI").
Proof.
  intros HM HD HU. unfold completion_payload, completion_request in *.
  enter. steps. finish.
Qed.

(** A 200 response with at least one choice. *)
Lemma getAIResponse_first_choice W g prompt disk payloadBytes body first rest :
  json_Marshal W (completion_payload prompt) = inr payloadBytes ->
  http_Do W (completion_request g payloadBytes) = inr (200%Z, inr body) ->
  json_Unmarshal W body = inr (first :: rest) ->
  (call (R := unit) (Rev4.getAIResponse W g prompt) (boot disk)).1
  = Next (inr (Content first)).
Proof.
  intros HM HD HU. unfold completion_payload, completion_request in *.
  enter. steps. finish.
Qed.

(** C8 at a response that is not 200: the call fails with an error that
    holds the status code and the rendering of the reader; the body is
    never read, and the error is the same whatever the body holds. *)
Theorem non_200_error_lacks_body (W : World) (g prompt : string)
    (disk : gmap string string) (payloadBytes : string) (code : Z)
    (data data' : error + string) :
  json_Marshal W (completion_payload prompt) = inr payloadBytes ->
  http_Do W (completion_request g payloadBytes) = inr (code, data) ->
  code <> 200%Z ->
  (call (R := unit) (Rev4.getAIResponse W g prompt) (boot disk)).1
  = Next (inl (unexpected_status W code))
  /\ existsb is_body_read
       (trace (call (R := unit) (Rev4.getAIResponse W g prompt) (boot disk)).2) = false
  /\ (call (R := unit) (Rev4.getAIResponse (with_response_body W data') g prompt)
        (boot disk)).1
     = (call (R := unit) (Rev4.getAIResponse W g prompt) (boot disk)).1.
Proof.
  intros HM HD HC. apply Z.eqb_neq in HC.
  destruct (getAIResponse_not_200 W g prompt disk payloadBytes code data HM HD HC)
    as [H1 H2].
  split; [exact H1|]. split; [exact H2|].
  rewrite H1.
  apply (getAIResponse_not_200 (with_response_body W data') g prompt disk
           payloadBytes code data').
  - exact HM.
  - cbn [with_response_body http_Do]. now rewrite HD.
  - exact HC.
Qed.

Lemma non_200_error_lacks_body_witness :
  let W := Sample.world None [] 429 in
  (call (R := unit) (Rev4.getAIResponse W "g" "p") (boot ∅)).1
  = Next (inl (unexpected_status W 429))
  /\ existsb is_body_read
       (trace (call (R := unit) (Rev4.getAIResponse W "g" "p") (boot ∅)).2) = false
  /\ (call (R := unit)
        (Rev4.getAIResponse (with_response_body W (inr "model overloaded")) "g" "p")
        (boot ∅)).1
     = (call (R := unit) (Rev4.getAIResponse W "g" "p") (boot ∅)).1.
Proof.
  eapply (non_200_error_lacks_body (Sample.world None [] 429) "g" "p" ∅ _ 429
            (inr "rate limit exceeded") (inr "model overloaded"));
    [reflexivity | reflexivity | discriminate].
Defined.

(** * More on the sanitizer *)

Lemma all_bytes_append (p : ascii -> bool) (a b : string) :
  all_bytes p (a +:+ b) = all_bytes p a && all_bytes p b.
Proof.
  induction a as [|c a IH]; [reflexivity|].
  rewrite append_cons. cbn [all_bytes]. now rewrite IH, andb_assoc.
Qed.

Lemma count_bytes_append (p : ascii -> bool) (a b : string) :
  count_bytes p (a +:+ b) = (count_bytes p a + count_bytes p b)%nat.
Proof.
  induction a as [|c a IH]; [reflexivity|].
  rewrite append_cons. cbn [count_bytes]. rewrite IH. lia.
Qed.

Lemma sanitized_byte_no_control (c : ascii) :
  all_bytes (fun c => negb (is_control c)) (sanitizeInput (str1 c)) = true.
Proof. destruct c as [[] [] [] [] [] [] [] []]; reflexivity. Qed.

Lemma sanitized_no_control (s : string) :
  all_bytes (fun c => negb (is_control c)) (sanitizeInput s) = true.
Proof.
  induction s as [|c s IH]; [reflexivity|].
  now rewrite sanitizeInput_cons, all_bytes_append, sanitized_byte_no_control, IH.
Qed.

Lemma all_not_has (p : ascii -> bool) (s : string) :
  all_bytes (fun c => negb (p c)) s = negb (has_byte p s).
Proof.
  induction s as [|c s IH]; [reflexivity|].
  cbn [all_bytes has_byte]. now rewrite IH, negb_orb.
Qed.

(** No byte below U+0020 is left in the output of sanitizeInput:
    escaped or removed, every control character of the input is gone. *)
Theorem sanitizeInput_no_control (s : string) :
  has_byte is_control (sanitizeInput s) = false.
Proof.
  apply negb_true_iff. rewrite <- all_not_has. apply sanitized_no_control.
Qed.

Lemma sanitized_byte_length (c : ascii) :
  (String.length (sanitizeInput (str1 c)) + (if is_dropped c then 1 else 0)
   = 1 + (if is_escaped c then 1 else 0))%nat.
Proof. destruct c as [[] [] [] [] [] [] [] []]; reflexivity. Qed.

(** The length of the output: every escaped byte (backslash, newline,
    tab, carriage return, form feed) adds one byte, every removed
    control character takes one away. *)
Theorem sanitizeInput_length (s : string) :
  (String.length (sanitizeInput s) + count_bytes is_dropped s
   = String.length s + count_bytes is_escaped s)%nat.
Proof.
  induction s as [|c s IH]; [reflexivity|].
  rewrite sanitizeInput_cons, length_append. cbn [count_bytes String.length].
  pose proof (sanitized_byte_length c). lia.
Qed.

Lemma sanitized_byte_fixed (c : ascii) :
  is_rewritten c = false -> sanitizeInput (str1 c) = str1 c.
Proof.
  destruct c as [[] [] [] [] [] [] [] []]; vm_compute;
    first [reflexivity | discriminate].
Qed.

Lemma sanitize_plain_fixed (s : string) :
  has_byte is_rewritten s = false -> sanitizeInput s = s.
Proof.
  induction s as [|c s IH]; [reflexivity|].
  cbn [has_byte]. intros H. apply orb_false_iff in H as [Hc Hs].
  now rewrite sanitizeInput_cons, (sanitized_byte_fixed c Hc), (IH Hs).
Qed.

Lemma sanitized_byte_backslashes (c : ascii) :
  count_bytes is_backslash (sanitizeInput (str1 c))
  = ((if is_backslash c then 2 else 0) + (if is_escaped c && negb (is_backslash c) then 1 else 0))%nat.
Proof. destruct c as [[] [] [] [] [] [] [] []]; reflexivity. Qed.

Lemma sanitized_backslashes (s : string) :
  count_bytes is_backslash (sanitizeInput s)
  = (2 * count_bytes is_backslash s
     + count_bytes (fun c => is_escaped c && negb (is_backslash c)) s)%nat.
Proof.
  induction s as [|c s IH]; [reflexivity|].
  rewrite sanitizeInput_cons, count_bytes_append, sanitized_byte_backslashes, IH.
  cbn [count_bytes]. destruct (is_backslash c), (is_escaped c); cbn; lia.
Qed.

Lemma no_control_no_rewritten (s : string) :
  all_bytes (fun c => negb (is_control c)) s = true ->
  count_bytes is_backslash s = 0%nat ->
  has_byte is_rewritten s = false.
Proof.
  induction s as [|c s IH]; [reflexivity|].
  cbn [all_bytes count_bytes has_byte]. intros H N.
  apply andb_true_iff in H as [Hc Hs].
  unfold is_rewritten at 1. apply negb_true_iff in Hc. rewrite Hc.
  destruct (is_backslash c); [discriminate N|].
  cbn. apply IH; [exact Hs | exact N].
Qed.

(** sanitizeInput returns its input unchanged exactly when the input
    has no backslash and no control character; any other input comes
    back different. *)
Theorem sanitizeInput_fixed_iff (s : string) :
  sanitizeInput s = s <-> has_byte is_rewritten s = false.
Proof.
  split; [|apply sanitize_plain_fixed].
  intros E.
  assert (C : all_bytes (fun c => negb (is_control c)) s = true)
    by (rewrite <- E; apply sanitized_no_control).
  pose proof (sanitized_backslashes s) as B. rewrite E in B.
  apply no_control_no_rewritten; [exact C | lia].
Qed.

Lemma dropped_none_fixed (s : string) :
  has_byte is_dropped s = false -> ReplaceAllString dropped_class s "" = s.
Proof.
  induction s as [|c s IH]; [reflexivity|].
  cbn [has_byte ReplaceAllString]. intros H. apply orb_false_iff in H as [Hc Hs].
  unfold is_dropped in Hc. rewrite Hc. now rewrite (IH Hs).
Qed.

(** A text without double quote and without any of the control
    characters the sanitizer removes, sanitized and put between quotes,
    is read back as the text itself. *)
Lemma json_read_clean (s rest : string) :
  has_byte (fun c => Ascii.eqb dq c || is_dropped c) s = false ->
  json_read_string (sanitizeInput s +:+ String dq rest) = Some (s, rest).
Proof.
  intros H.
  assert (Hq : has_byte (Ascii.eqb dq) s = false /\ has_byte is_dropped s = false).
  { induction s as [|c s IH]; [split; reflexivity|].
    cbn [has_byte] in *. apply orb_false_iff in H as [Hc Hs].
    apply orb_false_iff in Hc as [H1 H2]. destruct (IH Hs) as [I1 I2].
    now rewrite H1, H2, I1, I2. }
  destruct Hq as [Hq Hd].
  now rewrite (json_read_sanitizeInput s rest Hq), (dropped_none_fixed s Hd).
Qed.


(** * Reading a reply back *)

Lemma expect_here (c : ascii) (r : string) :
  is_ws c = false -> expect c (String c r) = Some r.
Proof. intros H. unfold expect. cbn [skip_ws]. rewrite H. now rewrite Ascii.eqb_refl. Qed.

Lemma expect_space (c : ascii) (r : string) :
  expect c (String " " r) = expect c r.
Proof. reflexivity. Qed.

Lemma json_member_reads (k raw v rest : string) :
  (forall rest, json_read_string (k +:+ String dq rest) = Some (k, rest)) ->
  (forall rest, json_read_string (raw +:+ String dq rest) = Some (v, rest)) ->
  json_member
    (String dq (k +:+ String dq (String ":" (String " " (String dq (raw +:+ String dq rest))))))
  = Some ((k, v), rest).
Proof.
  intros Hk Hv. unfold json_member.
  rewrite (expect_here dq) by reflexivity. cbn [mbind option_bind].
  rewrite Hk. cbn [mbind option_bind].
  rewrite (expect_here ":") by reflexivity. cbn [mbind option_bind].
  rewrite expect_space, (expect_here dq) by reflexivity. cbn [mbind option_bind].
  rewrite Hv. reflexivity.
Qed.


Lemma json_members_last (fuel : nat) (k raw v tail : string) :
  (forall rest, json_read_string (k +:+ String dq rest) = Some (k, rest)) ->
  (forall rest, json_read_string (raw +:+ String dq rest) = Some (v, rest)) ->
  json_members (S fuel)
    (String dq (k +:+ String dq (String ":" (String " " (String dq
       (raw +:+ String dq (String "}" tail)))))))
  = Some ([(k, v)], tail).
Proof.
  intros Hk Hv. cbn [json_members]. rewrite (json_member_reads k raw v _ Hk Hv).
  reflexivity.
Qed.

Lemma json_members_next (fuel : nat) (k raw v rest : string)
    (kvs : list (string * string)) (tail : string) :
  (forall rest, json_read_string (k +:+ String dq rest) = Some (k, rest)) ->
  (forall rest, json_read_string (raw +:+ String dq rest) = Some (v, rest)) ->
  json_members fuel rest = Some (kvs, tail) ->
  json_members (S fuel)
    (String dq (k +:+ String dq (String ":" (String " " (String dq
       (raw +:+ String dq (String "," rest)))))))
  = Some ((k, v) :: kvs, tail).
Proof.
  intros Hk Hv Hr. cbn [json_members]. rewrite (json_member_reads k raw v _ Hk Hv).
  cbn [mbind option_bind skip_ws]. change (is_ws ",") with false. cbv iota.
  change (Ascii.eqb "," ",") with true. cbv iota. rewrite Hr. reflexivity.
Qed.

Lemma json_members_space (fuel : nat) (s : string) :
  json_members fuel (String " " s) = json_members fuel s.
Proof. destruct fuel; reflexivity. Qed.

Lemma json_flat_object_members (r : string) (kvs : list (string * string))
    (tail : string) :
  json_members (String.length (String "{" (String dq r))) (String dq r) = Some (kvs, tail) ->
  skip_ws tail = "" ->
  json_flat_object (String "{" (String dq r)) = Some kvs.
Proof.
  intros Hm Ht. unfold json_flat_object.
  rewrite (expect_here "{") by reflexivity. cbn [mbind option_bind skip_ws].
  change (is_ws dq) with false. cbv iota.
  set (d := dq) at 1. vm_compute in d. subst d. cbv iota.
  rewrite Hm. cbn [mbind option_bind]. now rewrite Ht.
Qed.

Lemma reply_reads_back (k raw v tail : string) :
  (forall rest, json_read_string (k +:+ String dq rest) = Some (k, rest)) ->
  (forall rest, json_read_string (raw +:+ String dq rest) = Some (v, rest)) ->
  skip_ws tail = "" ->
  json_flat_object
    (lit "{'status': 'success', '" +:+ k +:+ lit "': '" +:+ raw +:+ lit "'}" +:+ tail)
  = Some [("status", "success"); (k, v)].
Proof.
  intros Hk Hv Ht.
  set (m2 := String dq (k +:+ String dq (String ":" (String " " (String dq
                  (raw +:+ String dq (String "}" tail))))))).
  assert (E : lit "{'status': 'success', '" +:+ k +:+ lit "': '" +:+ raw +:+ lit "'}" +:+ tail
          = String "{" (String dq ("status" +:+ String dq (String ":" (String " " (String dq
              ("success" +:+ String dq (String "," (String " " m2))))))))).
  { vm_compute. reflexivity. }
  rewrite E. clear E.
  apply (json_flat_object_members _ _ tail); [|exact Ht].
  cbn [String.length].
  apply json_members_next; [intros; reflexivity | intros; reflexivity |].
  rewrite json_members_space. apply json_members_last; assumption.
Qed.

Lemma json_field_last (k v : string) (o : list (string * string)) :
  json_field k (o ++ [(k, v)]) = Some v.
Proof.
  unfold json_field. rewrite reverse_app. cbn [reverse rev_append app list_find fst].
  rewrite String.eqb_refl. reflexivity.
Qed.


(** * Every path of the upload handler *)

Ltac finish_answered :=
  first
    [ left; split;
      [ reflexivity
      | eexists; split; [reflexivity | cbv; repeat (first [left; reflexivity | right])] ]
    | right; split; [split; vm_compute; reflexivity | eexists _, _; split; eassumption] ].

Ltac finish_keys :=
  repeat first
    [ apply List.Forall_nil
    | apply List.Forall_cons; [first [exact I | reflexivity | apply lookup_insert_eq]|] ].

Ltac finish_frame :=
  let path := fresh "path" in
  let Hne := fresh "Hne" in
  intros _ path Hne;
  rewrite ?lookup_insert_ne by congruence;
  reflexivity.

Lemma upload_paths_Rev4 W k r disk :
  fds (serve (Rev4.uploadHandler W k) r disk).2 = ∅
  /\ (count_events is_transcribe (trace (serve (Rev4.uploadHandler W k) r disk).2) <= 1)%nat
  /\ (count_events is_create_temp (trace (serve (Rev4.uploadHandler W k) r disk).2) <= 1)%nat
  /\ List.filter is_lookup (trace (serve (Rev4.uploadHandler W k) r disk).2)
     = expected_lookups r
  /\ (forall g, uses_keys k g (trace (serve (Rev4.uploadHandler W k) r disk).2))
  /\ (form_in_memory r = true ->
      forall path, os_CreateTemp W "" "upload-*.tmp" <> inr path ->
      files (serve (Rev4.uploadHandler W k) r disk).2 !! path = disk !! path)
  /\ (answered (serve (Rev4.uploadHandler W k) r disk) [200; 400; 401; 403; 500]%Z
      \/ panicked_unanswered (serve (Rev4.uploadHandler W k) r disk)
         /\ exists audio tr,
              aai_TranscribeFromReader W k audio
                {| Punctuate := Some true; FormatText := Some true |} = inr tr
              /\ Text tr = None).
Proof.
  unfold expected_lookups, uses_keys, answered, panicked_unanswered.
  split_session W r;
    [ | | split_upload W k r ({| Punctuate := Some true; FormatText := Some true |}) | ];
    enter; steps; run_cbv; run_maps;
    (split; [vm_compute; reflexivity|]);
    (split; [vm_compute; lia|]);
    (split; [vm_compute; lia|]);
    (split; [vm_compute; reflexivity|]);
    (split; [intros ?; finish_keys|]);
    (split; [finish_frame|]);
    finish_answered.
Qed.

(** * The failures of the upload handler *)

Lemma form_file_error_Some (r : Request) (err : error) :
  form_file_error r = Some err ->
  multipart r = inl err
  \/ exists parts, multipart r = inr parts
                   /\ find_part "uploadfile" parts = None
                   /\ err = "http: no such file".
Proof.
  unfold form_file_error. destruct (multipart r) as [e|parts]; [intros [= <-]; now left|].
  destruct (find_part "uploadfile" parts) eqn:F; [discriminate|].
  intros [= <-]. right. exists parts. auto.
Qed.

Ltac finish_error :=
  run_cbv; run_maps; unfold plain_error, work;
  repeat apply conj; try (intros _; reflexivity); try (vm_compute; reflexivity); eauto.

(** A request without the form file, or whose form does not parse, is
    answered 400 with the error text; the handler creates no temporary
    file and sends nothing to the provider, and when the form fits in
    memory the disk is as it was. *)
Theorem upload_without_file (W : World) (k : string) (r : Request)
    (disk : gmap string string) (err : error) :
  auth_state W r = Allowed ->
  form_file_error r = Some err ->
  plain_error (serve (Rev4.uploadHandler W k) r disk) 400 err
  /\ work (trace (serve (Rev4.uploadHandler W k) r disk).2) = [EvFormFile "uploadfile"]
  /\ (form_in_memory r = true ->
      files (serve (Rev4.uploadHandler W k) r disk).2 = disk).
Proof.
  intros HA HF. destruct (form_file_error_Some r err HF) as [HM|(parts & HM & HP & ->)];
    enter; steps; finish_error.
Qed.

Lemma upload_without_file_witness :
  plain_error (serve (Rev4.uploadHandler Sample.W "key") SampleFaults.no_file ∅)
    400 "http: no such file"
  /\ work (trace (serve (Rev4.uploadHandler Sample.W "key") SampleFaults.no_file ∅).2)
     = [EvFormFile "uploadfile"]
  /\ files (serve (Rev4.uploadHandler Sample.W "key") SampleFaults.no_file ∅).2 = ∅.
Proof.
  destruct (upload_without_file Sample.W "key" SampleFaults.no_file ∅
              "http: no such file" eq_refl eq_refl) as (H1 & H2 & H3).
  exact (conj H1 (conj H2 (H3 eq_refl))).
Defined.

(** When the temporary file cannot be created the answer is 500 with
    the error text; nothing is copied or sent, and when the form fits
    in memory the disk is as it was. *)
Theorem upload_temp_file_failure (W : World) (k : string) (r : Request)
    (disk : gmap string string) (p : Part) (err : error) :
  auth_state W r = Allowed ->
  upload_of r = Some p ->
  os_CreateTemp W "" "upload-*.tmp" = inl err ->
  plain_error (serve (Rev4.uploadHandler W k) r disk) 500 err
  /\ work (trace (serve (Rev4.uploadHandler W k) r disk).2)
     = [EvFormFile "uploadfile"; EvCreateTemp "" "upload-*.tmp"]
  /\ (form_in_memory r = true ->
      files (serve (Rev4.uploadHandler W k) r disk).2 = disk).
Proof. intros. enter. steps. finish_error. Qed.

Lemma upload_temp_file_failure_witness :
  plain_error (serve (Rev4.uploadHandler SampleFaults.disk_full "key") Sample.r ∅)
    500 "no space left on device"
  /\ work (trace (serve (Rev4.uploadHandler SampleFaults.disk_full "key") Sample.r ∅).2)
     = [EvFormFile "uploadfile"; EvCreateTemp "" "upload-*.tmp"]
  /\ files (serve (Rev4.uploadHandler SampleFaults.disk_full "key") Sample.r ∅).2 = ∅.
Proof.
  destruct (upload_temp_file_failure SampleFaults.disk_full "key" Sample.r ∅ Sample.wav
              "no space left on device" eq_refl eq_refl eq_refl) as (H1 & H2 & H3).
  exact (conj H1 (conj H2 (H3 eq_refl))).
Defined.


(** When the copy fails after [n] bytes the answer is 500 with the
    error text and no transcription request is made; the temporary file
    stays on disk with the bytes that were written. *)
Theorem upload_copy_failure (W : World) (k : string) (r : Request)
    (disk : gmap string string) (p : Part) (name : string) (n : nat) (err : error) :
  auth_state W r = Allowed ->
  upload_of r = Some p ->
  os_CreateTemp W "" "upload-*.tmp" = inr name ->
  io_Copy_fault W = Some (n, err) ->
  plain_error (serve (Rev4.uploadHandler W k) r disk) 500 err
  /\ count_events is_transcribe (trace (serve (Rev4.uploadHandler W k) r disk).2) = 0%nat
  /\ files (serve (Rev4.uploadHandler W k) r disk).2 !! name
     = Some (substring 0 n (part_content p)).
Proof. intros. enter. steps. finish_error. Qed.

Lemma upload_copy_failure_witness :
  plain_error (serve (Rev4.uploadHandler SampleFaults.short_write "key") Sample.r ∅)
    500 "short write"
  /\ count_events is_transcribe
       (trace (serve (Rev4.uploadHandler SampleFaults.short_write "key") Sample.r ∅).2)
     = 0%nat
  /\ files (serve (Rev4.uploadHandler SampleFaults.short_write "key") Sample.r ∅).2
       !! "/tmp/upload-2914.tmp"
     = Some (substring 0 4 (part_content Sample.wav)).
Proof.
  apply (upload_copy_failure SampleFaults.short_write "key" Sample.r ∅ Sample.wav
           "/tmp/upload-2914.tmp" 4 "short write");
    reflexivity.
Defined.


(** When the provider call fails the answer is 500 with the provider's
    error text. *)
Theorem upload_transcription_failure (W : World) (k : string) (r : Request)
    (disk : gmap string string) (p : Part) (name : string) (err : error) :
  auth_state W r = Allowed ->
  upload_of r = Some p ->
  os_CreateTemp W "" "upload-*.tmp" = inr name ->
  io_Copy_fault W = None ->
  aai_TranscribeFromReader W k (part_content p)
    {| Punctuate := Some true; FormatText := Some true |} = inl err ->
  plain_error (serve (Rev4.uploadHandler W k) r disk) 500 err.
Proof. intros. enter. steps. finish_error. Qed.

Lemma upload_transcription_failure_witness :
  plain_error (serve (Rev4.uploadHandler SampleFaults.provider_down "key") Sample.r ∅)
    500 "unable to upload file".
Proof.
  apply (upload_transcription_failure SampleFaults.provider_down "key" Sample.r ∅
           Sample.wav "/tmp/upload-2914.tmp" "unable to upload file");
    reflexivity.
Defined.




(** A transcript of plain bytes (no double quote, no backslash, no
    control character) arrives intact: the answer is 200 and its body
    is a JSON object whose transcript member is the text the provider
    returned. *)
Theorem transcript_reads_back (W : World) (k : string) (r : Request)
    (disk : gmap string string) (p : Part) (name : string) (tr : Transcript)
    (text : string) :
  auth_state W r = Allowed ->
  upload_of r = Some p ->
  os_CreateTemp W "" "upload-*.tmp" = inr name ->
  io_Copy_fault W = None ->
  aai_TranscribeFromReader W k (part_content p)
    {| Punctuate := Some true; FormatText := Some true |} = inr tr ->
  Text tr = Some text ->
  all_bytes is_plain text = true ->
  w_status (w (serve (Rev4.uploadHandler W k) r disk).2) = Some 200%Z
  /\ transcript_field (w_body (w (serve (Rev4.uploadHandler W k) r disk).2)) = Some text.
Proof.
  intros HA HU HT HC HP HX Hplain.
  destruct (transcribe_success_Rev4 W k r disk p name tr text HA HU HT HC HP HX)
    as (_ & Hs & Hb).
  split; [exact Hs|]. rewrite Hb. unfold transcript_field.
  assert (E : (lit "{'status': 'success', 'transcript': '" +:+ text +:+ lit "'}") +:+ str1 nl
              = lit "{'status': 'success', '" +:+ "transcript" +:+ lit "': '" +:+ text
                +:+ lit "'}" +:+ str1 nl).
  { rewrite <- !append_assoc. reflexivity. }
  rewrite E.
  rewrite (reply_reads_back "transcript" text text (str1 nl));
    [ reflexivity | intros; reflexivity | intros; now apply json_read_plain | reflexivity ].
Qed.

Lemma transcript_reads_back_witness :
  w_status (w (serve (Rev4.uploadHandler Sample.W "key") Sample.r ∅).2) = Some 200%Z
  /\ transcript_field (w_body (w (serve (Rev4.uploadHandler Sample.W "key") Sample.r ∅).2))
     = Some "hello world".
Proof.
  apply (transcript_reads_back Sample.W "key" Sample.r ∅ Sample.wav
           "/tmp/upload-2914.tmp" {| Text := Some "hello world" |} "hello world");
    reflexivity.
Defined.


(** * Every path of the summarize handler *)

Ltac split_decode W r :=
  destruct (json_Decode W (Body r)) as [?|[[|c t]|]] eqn:?.

Ltac finish_request :=
  let text := fresh "text" in
  let pb := fresh "pb" in
  intros text pb ? ?; unfold completes_with;
  repeat constructor; congruence.

Lemma summarize_paths W g r disk :
  fds (serve (Rev4.handleSummaryRequest W g) r disk).2 = ∅
  /\ files (serve (Rev4.handleSummaryRequest W g) r disk).2 = disk
  /\ (count_events is_completion_call
        (trace (serve (Rev4.handleSummaryRequest W g) r disk).2) <= 1)%nat
  /\ forallb (fun e => is_lookup e || is_completion_call e || is_body_read e || is_close e)
       (trace (serve (Rev4.handleSummaryRequest W g) r disk).2) = true
  /\ List.filter is_lookup (trace (serve (Rev4.handleSummaryRequest W g) r disk).2)
     = expected_lookups r
  /\ (forall text payloadBytes,
        json_Decode W (Body r) = inr (Some text) ->
        json_Marshal W (completion_payload (Rev4.promptPrefix +:+ text)) = inr payloadBytes ->
        completes_with (completion_request g payloadBytes)
          (trace (serve (Rev4.handleSummaryRequest W g) r disk).2))
  /\ (forall k, uses_keys k g (trace (serve (Rev4.handleSummaryRequest W g) r disk).2))
  /\ answered (serve (Rev4.handleSummaryRequest W g) r disk) [200; 400; 401; 403; 500]%Z
  /\ (w_status (w (serve (Rev4.handleSummaryRequest W g) r disk).2) = Some 200%Z ->
      w_sent (w (serve (Rev4.handleSummaryRequest W g) r disk).2) !! "Content-Type" = None
      /\ w_header (w (serve (Rev4.handleSummaryRequest W g) r disk).2) !! "Content-Type"
         = Some "application/json").
Proof.
  unfold expected_lookups, answered.
  split_session W r;
    [ | | split_decode W r;
          [ | | split_completion W g (Rev4.promptPrefix +:+ String c t) | ] | ];
    enter; steps; run_cbv; run_maps;
    (split; [vm_compute; reflexivity|]);
    (split; [reflexivity|]);
    (split; [vm_compute; lia|]);
    (split; [vm_compute; reflexivity|]);
    (split; [vm_compute; reflexivity|]);
    (split; [unfold completion_payload, completion_request; finish_request|]);
    (split; [intros ?; unfold uses_keys; finish_keys|]);
    (split;
      [ split;
        [ reflexivity
        | eexists; split; [reflexivity | cbv; repeat (first [left; reflexivity | right])] ]
      | ]);
    (let Hs := fresh "Hs" in
     intros Hs; vm_compute in Hs;
     first [discriminate Hs | split; vm_compute; reflexivity]).
Qed.

(** * The replies of the summarize handler *)

Lemma decoded_text_Some (W : World) (r : Request) (text : string) :
  decoded_text W r = Some text ->
  exists c t, text = String c t /\ json_Decode W (Body r) = inr (Some (String c t)).
Proof.
  unfold decoded_text. destruct (json_Decode W (Body r)) as [?|[[|c t]|]];
    try discriminate. cbn. intros [= <-]. eauto.
Qed.

(** A body that is not JSON is answered 400 with the text Invalid JSON
    body; the completion provider is not called. *)
Theorem summarize_invalid_body (W : World) (g : string) (r : Request)
    (disk : gmap string string) (err : error) :
  auth_state W r = Allowed ->
  json_Decode W (Body r) = inl err ->
  plain_error (serve (Rev4.handleSummaryRequest W g) r disk) 400 "Invalid JSON body"
  /\ work (trace (serve (Rev4.handleSummaryRequest W g) r disk).2) = [].
Proof. intros. enter. steps. finish_error. Qed.

Lemma summarize_invalid_body_witness :
  plain_error (serve (Rev4.handleSummaryRequest Sample.W "g") SampleFaults.not_json ∅)
    400 "Invalid JSON body"
  /\ work (trace (serve (Rev4.handleSummaryRequest Sample.W "g") SampleFaults.not_json ∅).2)
     = [].
Proof.
  apply (summarize_invalid_body Sample.W "g" SampleFaults.not_json ∅ "invalid character");
    reflexivity.
Defined.


Lemma summary_reply_reads_back (summary : string) :
  has_byte (fun c => Ascii.eqb dq c || is_dropped c) summary = false ->
  summary_field (summary_reply summary) = Some summary.
Proof.
  intros H. unfold summary_field, summary_reply.
  assert (E : lit "{'status': 'success', 'summary': '" +:+ sanitizeInput summary +:+ lit "'}"
              = lit "{'status': 'success', '" +:+ "summary" +:+ lit "': '"
                +:+ sanitizeInput summary +:+ lit "'}" +:+ "").
  { vm_compute. reflexivity. }
  rewrite E.
  rewrite (reply_reads_back "summary" (sanitizeInput summary) summary "");
    [ reflexivity | intros; reflexivity | intros; now apply json_read_clean | reflexivity ].
Qed.

Lemma summarize_outcome (W : World) (g : string) (r : Request)
    (disk : gmap string string) (text : string) :
  auth_state W r = Allowed ->
  decoded_text W r = Some text ->
  match (call (R := unit) (Rev4.getAIResponse W g (Rev4.promptPrefix +:+ text))
           (boot disk)).1 with
  | Next (inl err) => plain_error (serve (Rev4.handleSummaryRequest W g) r disk) 500 err
  | Next (inr summary) =>
      (serve (Rev4.handleSummaryRequest W g) r disk).1 = Next tt
      /\ w_status (w (serve (Rev4.handleSummaryRequest W g) r disk).2) = Some 200%Z
      /\ w_body (w (serve (Rev4.handleSummaryRequest W g) r disk).2) = summary_reply summary
  | _ => False
  end.
Proof.
  intros HA HD. destruct (decoded_text_Some W r text HD) as (c & t & -> & HJ).
  clear HD. unfold summary_reply.
  split_completion W g (Rev4.promptPrefix +:+ String c t);
    enter; steps; steps; cbn [fst]; finish_error.
Qed.

(** The summarize handler answers as the completion client decides,
    called with the fixed prefix followed by the text of the request: an
    error of the client becomes a 500 with the error text; a summary
    becomes a 200 whose body holds the summary passed through
    sanitizeInput, and when the summary has no double quote and none of
    the control characters the sanitizer removes, the body is a JSON
    object whose summary member is the summary itself. *)
Theorem summarize_answers_as_client (W : World) (g : string) (r : Request)
    (disk : gmap string string) (text : string) :
  auth_state W r = Allowed ->
  decoded_text W r = Some text ->
  match (call (R := unit) (Rev4.getAIResponse W g (Rev4.promptPrefix +:+ text))
           (boot disk)).1 with
  | Next (inl err) => plain_error (serve (Rev4.handleSummaryRequest W g) r disk) 500 err
  | Next (inr summary) =>
      (serve (Rev4.handleSummaryRequest W g) r disk).1 = Next tt
      /\ w_status (w (serve (Rev4.handleSummaryRequest W g) r disk).2) = Some 200%Z
      /\ w_body (w (serve (Rev4.handleSummaryRequest W g) r disk).2) = summary_reply summary
      /\ (has_byte (fun c => Ascii.eqb dq c || is_dropped c) summary = false ->
          summary_field (w_body (w (serve (Rev4.handleSummaryRequest W g) r disk).2))
          = Some summary)
  | _ => False
  end.
Proof.
  intros HA HD. pose proof (summarize_outcome W g r disk text HA HD) as H.
  destruct (call (R := unit) (Rev4.getAIResponse W g (Rev4.promptPrefix +:+ text))
              (boot disk)).1 as [[err|summary]| |]; try exact H.
  destruct H as (H1 & H2 & H3). repeat apply conj; try assumption.
  intros Hc. rewrite H3. now apply summary_reply_reads_back.
Qed.

Lemma summarize_answers_as_client_witness :
  (serve (Rev4.handleSummaryRequest Sample.W "g") Sample.r ∅).1 = Next tt
  /\ w_status (w (serve (Rev4.handleSummaryRequest Sample.W "g") Sample.r ∅).2)
     = Some 200%Z
  /\ w_body (w (serve (Rev4.handleSummaryRequest Sample.W "g") Sample.r ∅).2)
     = summary_reply "# Summary"
  /\ (has_byte (fun c => Ascii.eqb dq c || is_dropped c) "# Summary" = false ->
      summary_field (w_body (w (serve (Rev4.handleSummaryRequest Sample.W "g") Sample.r ∅).2))
      = Some "# Summary").
Proof.
  exact (summarize_answers_as_client Sample.W "g" Sample.r ∅ "lecture on integrals"
           eq_refl eq_refl).
Defined.

(** * Starting the server *)

Ltac boot_up :=
  unfold start, Boot4.main, Boot3.main, Boot2.main, Exit, ListenAndServe;
  cbv beta iota zeta delta [Load].

Lemma main4_outcome dotenv environ fault :
  (start (Boot4.main dotenv environ fault)).1
  = Next (if configured dotenv environ then
            match fault with
            | None => Serving "0.0.0.0:8080" ["POST /transcribe"; "POST /summarize"]
                        (env_keys (loaded dotenv environ))
            | Some _ => Exited 0
            end
          else Exited 1).
Proof.
  unfold configured, env_keys, loaded. boot_up.
  destruct dotenv as [e|vars]; [steps; reflexivity|].
  cbv beta iota zeta.
  destruct (Getenv (environ ∪ vars) "ASSEMBLY_API_KEY") as [|c1 s1];
    [steps; reflexivity|].
  destruct (Getenv (environ ∪ vars) "GROQ_API_KEY") as [|c2 s2];
    [steps; reflexivity|].
  destruct (Getenv (environ ∪ vars) "CLERK_API_KEY") as [|c3 s3];
    [steps; reflexivity|].
  destruct fault; steps; reflexivity.
Qed.

Lemma main3_outcome dotenv environ fault :
  (start (Boot3.main dotenv environ fault)).1
  = Next (match dotenv with
          | inl _ => Exited 1
          | inr _ =>
              if String.eqb (Getenv (loaded dotenv environ) "ASSEMBLY_API_KEY") ""
                 || String.eqb (Getenv (loaded dotenv environ) "CLERK_API_KEY") ""
              then Exited 1
              else match fault with
                   | None => Serving "0.0.0.0:8080" ["POST /transcribe"]
                               (Getenv (loaded dotenv environ) "ASSEMBLY_API_KEY",
                                Getenv (loaded dotenv environ) "CLERK_API_KEY")
                   | Some _ => Exited 0
                   end
          end).
Proof.
  unfold loaded. boot_up.
  destruct dotenv as [e|vars]; [steps; reflexivity|].
  cbv beta iota zeta.
  destruct (Getenv (environ ∪ vars) "ASSEMBLY_API_KEY") as [|c1 s1];
    [steps; reflexivity|].
  destruct (Getenv (environ ∪ vars) "CLERK_API_KEY") as [|c3 s3];
    [steps; reflexivity|].
  destruct fault; steps; reflexivity.
Qed.

Lemma main2_outcome dotenv environ fault :
  (start (Boot2.main dotenv environ fault)).1
  = Next (match dotenv with
          | inl _ => Exited 1
          | inr _ =>
              if String.eqb (Getenv (loaded dotenv environ) "ASSEMBLY_API_KEY") ""
              then Exited 1
              else match fault with
                   | None => Serving "0.0.0.0:8080" ["POST /upload"]
                               (Getenv (loaded dotenv environ) "ASSEMBLY_API_KEY")
                   | Some _ => Exited 0
                   end
          end).
Proof.
  unfold loaded. boot_up.
  destruct dotenv as [e|vars]; [steps; reflexivity|].
  cbv beta iota zeta.
  destruct (Getenv (environ ∪ vars) "ASSEMBLY_API_KEY") as [|c1 s1];
    [steps; reflexivity|].
  destruct fault; steps; reflexivity.
Qed.

Lemma configured_keys dotenv environ :
  configured dotenv environ = true ->
  Getenv (loaded dotenv environ) "ASSEMBLY_API_KEY" <> ""
  /\ Getenv (loaded dotenv environ) "GROQ_API_KEY" <> ""
  /\ Getenv (loaded dotenv environ) "CLERK_API_KEY" <> "".
Proof.
  unfold configured. destruct dotenv as [e|vars]; [discriminate|].
  intros H. apply andb_true_iff in H as [H H3]. apply andb_true_iff in H as [H1 H2].
  apply negb_true_iff in H1, H2, H3.
  repeat split; now apply String.eqb_neq.
Qed.

(** main of src/go.mod serves only when it has its three keys: a
    serving process listens on 0.0.0.0:8080 with the two routes, and
    the keys it holds are the values of ASSEMBLY_API_KEY, GROQ_API_KEY
    and CLERK_API_KEY in the environment joined with the .env file,
    none of them empty. *)
Theorem main_serves_only_configured (dotenv : error + gmap string string)
    (environ : gmap string string) (fault : option error)
    (addr : string) (patterns : list string) (keys : Keys) :
  (start (Boot4.main dotenv environ fault)).1 = Next (Serving addr patterns keys) ->
  addr = "0.0.0.0:8080"
  /\ patterns = ["POST /transcribe"; "POST /summarize"]
  /\ keys = env_keys (loaded dotenv environ)
  /\ assemblyApiKey keys <> "" /\ groqApiKey keys <> "" /\ clerkApiKey keys <> "".
Proof.
  rewrite main4_outcome. destruct (configured dotenv environ) eqn:C; [|discriminate].
  destruct fault; [discriminate|]. intros [= <- <- <-].
  destruct (configured_keys dotenv environ C) as (K1 & K2 & K3). auto 10.
Qed.

Lemma main_serves_only_configured_witness :
  "0.0.0.0:8080" = "0.0.0.0:8080"
  /\ ["POST /transcribe"; "POST /summarize"] = ["POST /transcribe"; "POST /summarize"]
  /\ env_keys (loaded (inr SampleFaults.dotenv) ∅)
     = env_keys (loaded (inr SampleFaults.dotenv) ∅)
  /\ assemblyApiKey (env_keys (loaded (inr SampleFaults.dotenv) ∅)) <> ""
  /\ groqApiKey (env_keys (loaded (inr SampleFaults.dotenv) ∅)) <> ""
  /\ clerkApiKey (env_keys (loaded (inr SampleFaults.dotenv) ∅)) <> "".
Proof.
  apply (main_serves_only_configured (inr SampleFaults.dotenv) ∅ None
           "0.0.0.0:8080" ["POST /transcribe"; "POST /summarize"]
           (env_keys (loaded (inr SampleFaults.dotenv) ∅))).
  vm_compute. reflexivity.
Defined.


(** The exit status of main of src/go.mod: 1 exactly when the .env file
    does not load or one of the three keys is missing or empty; 0
    exactly when the keys are there and the listener fails at once, an
    error main drops without a message; otherwise the process serves. *)
Theorem main_exit_status (dotenv : error + gmap string string)
    (environ : gmap string string) (fault : option error) :
  ((start (Boot4.main dotenv environ fault)).1 = Next (Exited 1)
   <-> configured dotenv environ = false)
  /\ ((start (Boot4.main dotenv environ fault)).1 = Next (Exited 0)
      <-> configured dotenv environ = true /\ fault <> None)
  /\ ((exists addr patterns keys,
          (start (Boot4.main dotenv environ fault)).1 = Next (Serving addr patterns keys))
      <-> configured dotenv environ = true /\ fault = None).
Proof.
  rewrite main4_outcome.
  destruct (configured dotenv environ), fault as [e|];
    (split; [|split]); split; intros H;
    try discriminate H; try reflexivity;
    try (destruct H; congruence);
    try (destruct H as (? & ? & ? & H); discriminate H);
    try (split; congruence);
    eauto.
Qed.

(** The revisions ask for more and more keys, never for fewer: with the
    .env file and environment with which main of src/go.mod serves,
    main of part_001 and main of src/main.go serve as well. *)
Theorem main_requirements_grow (dotenv : error + gmap string string)
    (environ : gmap string string) (fault : option error)
    (addr : string) (patterns : list string) (keys : Keys) :
  (start (Boot4.main dotenv environ fault)).1 = Next (Serving addr patterns keys) ->
  (start (Boot3.main dotenv environ fault)).1
  = Next (Serving "0.0.0.0:8080" ["POST /transcribe"]
            (assemblyApiKey keys, clerkApiKey keys))
  /\ (start (Boot2.main dotenv environ fault)).1
     = Next (Serving "0.0.0.0:8080" ["POST /upload"] (assemblyApiKey keys)).
Proof.
  rewrite main4_outcome, main3_outcome, main2_outcome.
  destruct (configured dotenv environ) eqn:C; [|discriminate].
  destruct fault; [discriminate|]. intros [= <- <- <-].
  destruct (configured_keys dotenv environ C) as (K1 & K2 & K3).
  apply String.eqb_neq in K1, K3.
  unfold configured in C. destruct dotenv as [e|vars]; [discriminate|].
  cbn [env_keys assemblyApiKey clerkApiKey]. rewrite K1, K3. split; reflexivity.
Qed.

Lemma main_requirements_grow_witness :
  (start (Boot3.main (inr SampleFaults.dotenv) ∅ None)).1
  = Next (Serving "0.0.0.0:8080" ["POST /transcribe"]
            (assemblyApiKey (env_keys (loaded (inr SampleFaults.dotenv) ∅)),
             clerkApiKey (env_keys (loaded (inr SampleFaults.dotenv) ∅))))
  /\ (start (Boot2.main (inr SampleFaults.dotenv) ∅ None)).1
     = Next (Serving "0.0.0.0:8080" ["POST /upload"]
               (assemblyApiKey (env_keys (loaded (inr SampleFaults.dotenv) ∅)))).
Proof.
  apply (main_requirements_grow (inr SampleFaults.dotenv) ∅ None
           "0.0.0.0:8080" ["POST /transcribe"; "POST /summarize"]
           (env_keys (loaded (inr SampleFaults.dotenv) ∅))).
  vm_compute. reflexivity.
Defined.


(** * The first revision: uploads kept on disk *)

Ltac enter1 :=
  repeat match goal with
         | H : upload_of _ = Some _ |- _ =>
             destruct (upload_of_Some _ _ H) as (?parts & ? & ?); clear H
         end;
  unfold Rev1.uploadHandler, Rev1.Println, Rev1.Create.




(** When part_002 cannot create the file the answer is 500 with the
    error text and the file it names is as it was; when the copy fails
    after the file was created, the answer is 500 as well and the file
    is left with the bytes written so far, its former content gone.
    When the form fits in memory no other file changes either. *)
Theorem upload_store_failure (W : World) (fault : string -> option error) (r : Request)
    (disk : gmap string string) (p : Part) :
  upload_of r = Some p ->
  (forall err,
      fault ("./upload/" +:+ Filename (part_header p)) = Some err ->
      plain_error (serve (Rev1.uploadHandler W fault) r disk) 500 err
      /\ files (serve (Rev1.uploadHandler W fault) r disk).2
           !! ("./upload/" +:+ Filename (part_header p))
         = disk !! ("./upload/" +:+ Filename (part_header p))
      /\ (form_in_memory r = true ->
          files (serve (Rev1.uploadHandler W fault) r disk).2 = disk))
  /\ (forall n err,
      fault ("./upload/" +:+ Filename (part_header p)) = None ->
      io_Copy_fault W = Some (n, err) ->
      plain_error (serve (Rev1.uploadHandler W fault) r disk) 500 err
      /\ files (serve (Rev1.uploadHandler W fault) r disk).2
           !! ("./upload/" +:+ Filename (part_header p))
         = Some (substring 0 n (part_content p))
      /\ (form_in_memory r = true ->
          files (serve (Rev1.uploadHandler W fault) r disk).2
          = <["./upload/" +:+ Filename (part_header p)
              := substring 0 n (part_content p)]> disk)).
Proof.
  intros HU. split.
  - intros err HF. enter1. steps. finish_error.
  - intros n err HF HC. enter1. steps. run_cbv. run_maps. unfold plain_error.
    repeat apply conj;
      first [ intros _; apply insert_insert_eq
            | vm_compute; reflexivity
            | apply lookup_insert_eq ].
Qed.

Lemma upload_store_failure_witness :
  (plain_error (serve (Rev1.uploadHandler Sample.W SampleFaults.read_only) Sample.r ∅)
     500 "read-only file system"
   /\ files (serve (Rev1.uploadHandler Sample.W SampleFaults.read_only) Sample.r ∅).2 = ∅)
  /\ (plain_error
        (serve (Rev1.uploadHandler SampleFaults.short_write SampleFaults.writable)
           Sample.r ∅)
        500 "short write"
      /\ files (serve (Rev1.uploadHandler SampleFaults.short_write SampleFaults.writable)
                  Sample.r ∅).2
         = <["./upload/" +:+ Filename (part_header Sample.wav)
             := substring 0 4 (part_content Sample.wav)]> ∅).
Proof.
  split.
  - destruct (proj1 (upload_store_failure Sample.W SampleFaults.read_only Sample.r ∅
                       Sample.wav eq_refl) "read-only file system" eq_refl)
      as (H1 & _ & H3).
    exact (conj H1 (H3 eq_refl)).
  - destruct (proj2 (upload_store_failure SampleFaults.short_write SampleFaults.writable
                       Sample.r ∅ Sample.wav eq_refl) 4%nat "short write" eq_refl eq_refl)
      as (H1 & _ & H3).
    exact (conj H1 (H3 eq_refl)).
Defined.


(** * The completion client on its own *)

(** getAIResponse cleans up after itself: on every path the response
    body it opened is closed again, the disk and the response writer of
    the request are untouched, at most one request went to the
    provider, and the call returns (it never panics). *)
Theorem getAIResponse_leaves_nothing_open (W : World) (g prompt : string)
    (disk : gmap string string) :
  fds (call (R := unit) (Rev4.getAIResponse W g prompt) (boot disk)).2 = ∅
  /\ files (call (R := unit) (Rev4.getAIResponse W g prompt) (boot disk)).2 = disk
  /\ w (call (R := unit) (Rev4.getAIResponse W g prompt) (boot disk)).2 = fresh_writer
  /\ (count_events is_completion_call
        (trace (call (R := unit) (Rev4.getAIResponse W g prompt) (boot disk)).2) <= 1)%nat
  /\ exists res,
       (call (R := unit) (Rev4.getAIResponse W g prompt) (boot disk)).1 = Next res.
Proof.
  split_completion W g prompt; enter; steps; run_cbv; run_maps;
    (split; [vm_compute; reflexivity|]);
    (split; [reflexivity|]);
    (split; [reflexivity|]);
    (split; [vm_compute; lia|]);
    eexists; reflexivity.
Qed.

(** getAIResponse hands every failure of a step back unchanged: a
    payload that does not marshal (and then no request is made), a
    transport error, a body that cannot be read, a body that does not
    unmarshal. *)
Theorem getAIResponse_propagates_errors (W : World) (g prompt : string)
    (disk : gmap string string) :
  (forall err,
      json_Marshal W (completion_payload prompt) = inl err ->
      (call (R := unit) (Rev4.getAIResponse W g prompt) (boot disk)).1 = Next (inl err)
      /\ trace (call (R := unit) (Rev4.getAIResponse W g prompt) (boot disk)).2 = [])
  /\ (forall payloadBytes err,
      json_Marshal W (completion_payload prompt) = inr payloadBytes ->
      http_Do W (completion_request g payloadBytes) = inl err ->
      (call (R := unit) (Rev4.getAIResponse W g prompt) (boot disk)).1 = Next (inl err))
  /\ (forall payloadBytes err,
      json_Marshal W (completion_payload prompt) = inr payloadBytes ->
      http_Do W (completion_request g payloadBytes) = inr (200%Z, inl err) ->
      (call (R := unit) (Rev4.getAIResponse W g prompt) (boot disk)).1 = Next (inl err))
  /\ (forall payloadBytes body err,
      json_Marshal W (completion_payload prompt) = inr payloadBytes ->
      http_Do W (completion_request g payloadBytes) = inr (200%Z, inr body) ->
      json_Unmarshal W body = inl err ->
      (call (R := unit) (Rev4.getAIResponse W g prompt) (boot disk)).1 = Next (inl err)).
Proof.
  unfold completion_payload, completion_request.
  repeat split; intros; enter; steps; reflexivity.
Qed.

Lemma getAIResponse_propagates_errors_witness :
  ((call (R := unit)
      (Rev4.getAIResponse
         (SampleFaults.with_client Sample.W (inl "json: unsupported value")
            (inl "dial tcp: timeout") (inr []))
         "g" "p") (boot ∅)).1
   = Next (inl "json: unsupported value")
   /\ trace (call (R := unit)
               (Rev4.getAIResponse
                  (SampleFaults.with_client Sample.W (inl "json: unsupported value")
                     (inl "dial tcp: timeout") (inr []))
                  "g" "p") (boot ∅)).2
      = [])
  /\ (call (R := unit)
        (Rev4.getAIResponse
           (SampleFaults.with_client Sample.W (inr "{}") (inl "dial tcp: timeout")
              (inr []))
           "g" "p") (boot ∅)).1
     = Next (inl "dial tcp: timeout")
  /\ (call (R := unit)
        (Rev4.getAIResponse
           (SampleFaults.with_client Sample.W (inr "{}")
              (inr (200%Z, inl "unexpected EOF")) (inr []))
           "g" "p") (boot ∅)).1
     = Next (inl "unexpected EOF")
  /\ (call (R := unit)
        (Rev4.getAIResponse
           (SampleFaults.with_client Sample.W (inr "{}") (inr (200%Z, inr "<html>"))
              (inl "invalid character"))
           "g" "p") (boot ∅)).1
     = Next (inl "invalid character").
Proof.
  split; [|split; [|split]].
  - apply (proj1 (getAIResponse_propagates_errors
                    (SampleFaults.with_client Sample.W (inl "json: unsupported value")
                       (inl "dial tcp: timeout") (inr []))
                    "g" "p" ∅)).
    reflexivity.
  - apply (proj1 (proj2 (getAIResponse_propagates_errors
                    (SampleFaults.with_client Sample.W (inr "{}")
                       (inl "dial tcp: timeout") (inr []))
                    "g" "p" ∅)) "{}");
      reflexivity.
  - apply (proj1 (proj2 (proj2 (getAIResponse_propagates_errors
                    (SampleFaults.with_client Sample.W (inr "{}")
                       (inr (200%Z, inl "unexpected EOF")) (inr []))
                    "g" "p" ∅))) "{}");
      reflexivity.
  - apply (proj2 (proj2 (proj2 (getAIResponse_propagates_errors
                    (SampleFaults.with_client Sample.W (inr "{}")
                       (inr (200%Z, inr "<html>")) (inl "invalid character"))
                    "g" "p" ∅))) "{}" "<html>");
      reflexivity.
Defined.


(** * Across the revisions *)

(** The session check of part_001 wraps the handler of src/main.go
    unchanged: for a user it lets through, the two revisions write the
    same response, leave the same disk and make the same calls after the
    user lookup. *)
Theorem session_check_wraps_unchanged (W : World) (k : string) (r : Request)
    (disk : gmap string string) :
  auth_state W r = Allowed ->
  (serve (Rev3.uploadHandler W k) r disk).1 = (serve (Rev2.uploadHandler W k) r disk).1
  /\ w (serve (Rev3.uploadHandler W k) r disk).2 = w (serve (Rev2.uploadHandler W k) r disk).2
  /\ files (serve (Rev3.uploadHandler W k) r disk).2
     = files (serve (Rev2.uploadHandler W k) r disk).2
  /\ List.filter (fun e => negb (is_lookup e))
       (trace (serve (Rev3.uploadHandler W k) r disk).2)
     = trace (serve (Rev2.uploadHandler W k) r disk).2.
Proof.
  intros HA.
  split_upload W k r ({| Punctuate := None; FormatText := None |});
    enter; steps; steps; run_cbv; repeat apply conj; reflexivity.
Qed.

Lemma session_check_wraps_unchanged_witness :
  (serve (Rev3.uploadHandler Sample.W "key") Sample.r ∅).1
  = (serve (Rev2.uploadHandler Sample.W "key") Sample.r ∅).1
  /\ w (serve (Rev3.uploadHandler Sample.W "key") Sample.r ∅).2
     = w (serve (Rev2.uploadHandler Sample.W "key") Sample.r ∅).2
  /\ files (serve (Rev3.uploadHandler Sample.W "key") Sample.r ∅).2
     = files (serve (Rev2.uploadHandler Sample.W "key") Sample.r ∅).2
  /\ List.filter (fun e => negb (is_lookup e))
       (trace (serve (Rev3.uploadHandler Sample.W "key") Sample.r ∅).2)
     = trace (serve (Rev2.uploadHandler Sample.W "key") Sample.r ∅).2.
Proof.
  apply (session_check_wraps_unchanged Sample.W "key" Sample.r ∅). reflexivity.
Defined.

(** * What every run of a handler keeps *)

(** Neither handler of src/go.mod leaves a descriptor open: whatever
    the request and whatever fails, the uploaded file, the temporary
    file, the file the transcription client opens and the response body
    of the completion call are closed when the handler returns or
    panics. *)
Theorem handlers_close_every_descriptor (W : World) (k g : string) (r : Request)
    (disk : gmap string string) :
  fds (serve (Rev4.uploadHandler W k) r disk).2 = ∅
  /\ fds (serve (Rev4.handleSummaryRequest W g) r disk).2 = ∅.
Proof.
  split; [apply (upload_paths_Rev4 W k r disk) | apply (summarize_paths W g r disk)].
Qed.


(** The session check looks the user up exactly once when the request
    carries session claims, for the subject of the claims, and not at
    all when it carries none; nothing later in either handler looks a
    user up again. *)
Theorem one_user_lookup_per_request (W : World) (k g : string) (r : Request)
    (disk : gmap string string) :
  List.filter is_lookup (trace (serve (Rev4.uploadHandler W k) r disk).2)
  = expected_lookups r
  /\ List.filter is_lookup (trace (serve (Rev4.handleSummaryRequest W g) r disk).2)
     = expected_lookups r.
Proof.
  split; [apply (upload_paths_Rev4 W k r disk) | apply (summarize_paths W g r disk)].
Qed.

(** The disk after a request: for a form that fits in memory, the
    transcribe handler changes no file but the temporary file it
    creates; the summarize handler changes no file at all, and makes no
    call but user lookup, completion request, body read and close. *)
Theorem handlers_leave_the_disk (W : World) (k g : string) (r : Request)
    (disk : gmap string string) :
  (form_in_memory r = true ->
   forall path,
      os_CreateTemp W "" "upload-*.tmp" <> inr path ->
      files (serve (Rev4.uploadHandler W k) r disk).2 !! path = disk !! path)
  /\ files (serve (Rev4.handleSummaryRequest W g) r disk).2 = disk
  /\ forallb (fun e => is_lookup e || is_completion_call e || is_body_read e || is_close e)
       (trace (serve (Rev4.handleSummaryRequest W g) r disk).2) = true.
Proof.
  split; [apply (upload_paths_Rev4 W k r disk)|].
  split; apply (summarize_paths W g r disk).
Qed.

Lemma handlers_leave_the_disk_witness :
  files (serve (Rev4.uploadHandler Sample.W "key") Sample.r ∅).2 !! "/etc/passwd"
  = (∅ : gmap string string) !! "/etc/passwd"
  /\ files (serve (Rev4.handleSummaryRequest Sample.W "g") Sample.r ∅).2 = ∅.
Proof.
  split.
  - apply (proj1 (handlers_leave_the_disk Sample.W "key" "g" Sample.r ∅) eq_refl
             "/etc/passwd").
    discriminate.
  - apply (proj1 (proj2 (handlers_leave_the_disk Sample.W "key" "g" Sample.r ∅))).
Defined.


(** No path returns in silence: whenever a handler of src/go.mod
    returns, it has written a status, one of 200, 400, 401, 403 and
    500. *)
Theorem handlers_return_answered (W : World) (k g : string) (r : Request)
    (disk : gmap string string) :
  returns_answered (serve (Rev4.uploadHandler W k) r disk) [200; 400; 401; 403; 500]%Z
  /\ returns_answered (serve (Rev4.handleSummaryRequest W g) r disk)
       [200; 400; 401; 403; 500]%Z.
Proof.
  unfold returns_answered. split.
  - intros Hret.
    destruct (upload_paths_Rev4 W k r disk)
      as (_ & _ & _ & _ & _ & _ & [[_ H]|[[Hp _] _]]); [exact H|].
    rewrite Hp in Hret. discriminate Hret.
  - intros _.
    destruct (summarize_paths W g r disk) as (_ & _ & _ & _ & _ & _ & _ & [_ H] & _).
    exact H.
Qed.

Lemma handlers_return_answered_witness :
  (exists code,
      w_status (w (serve (Rev4.uploadHandler Sample.W "key") Sample.r ∅).2) = Some code
      /\ In code [200; 400; 401; 403; 500]%Z)
  /\ (exists code,
        w_status (w (serve (Rev4.handleSummaryRequest Sample.W "g") Sample.r ∅).2)
        = Some code
        /\ In code [200; 400; 401; 403; 500]%Z).
Proof.
  split.
  - apply (proj1 (handlers_return_answered Sample.W "key" "g" Sample.r ∅)). reflexivity.
  - apply (proj2 (handlers_return_answered Sample.W "key" "g" Sample.r ∅)). reflexivity.
Defined.

(** The one request a summarize request can send to the completion
    provider: a POST to the chat-completions URL, with the bearer token
    and the JSON content type, whose body is the marshalled payload of
    one user message, the fixed prompt prefix followed by the text of
    the request, for the fixed model. *)
Theorem summarize_request_shape (W : World) (g : string) (r : Request)
    (disk : gmap string string) (text payloadBytes : string) :
  json_Decode W (Body r) = inr (Some text) ->
  json_Marshal W (completion_payload (Rev4.promptPrefix +:+ text)) = inr payloadBytes ->
  completes_with (completion_request g payloadBytes)
    (trace (serve (Rev4.handleSummaryRequest W g) r disk).2).
Proof. apply (summarize_paths W g r disk). Qed.

Lemma summarize_request_shape_witness :
  completes_with
    (completion_request "g"
       (lit "{'messages':[{'content':'" +:+ Rev4.promptPrefix +:+ "lecture on integrals"
        +:+ lit "','role':'user'}],'model':'llama-3.3-70b-versatile'}"))
    (trace (serve (Rev4.handleSummaryRequest Sample.W "g") Sample.r ∅).2).
Proof.
  apply (summarize_request_shape Sample.W "g" Sample.r ∅ "lecture on integrals");
    vm_compute; reflexivity.
Defined.


(** The Content-Type of a summary comes too late: whenever the
    summarize handler answers 200, its header map holds no Content-Type
    at the moment of WriteHeader, and application/json is put into the
    map only afterwards, so the handler's own Content-Type is no part
    of the response. *)
Theorem summarize_content_type_set_late (W : World) (g : string) (r : Request)
    (disk : gmap string string) :
  w_status (w (serve (Rev4.handleSummaryRequest W g) r disk).2) = Some 200%Z ->
  header_at_WriteHeader (serve (Rev4.handleSummaryRequest W g) r disk).2
    !! "Content-Type" = None
  /\ w_header (w (serve (Rev4.handleSummaryRequest W g) r disk).2) !! "Content-Type"
     = Some "application/json".
Proof. apply (summarize_paths W g r disk). Qed.

Lemma summarize_content_type_set_late_witness :
  header_at_WriteHeader (serve (Rev4.handleSummaryRequest Sample.W "g") Sample.r ∅).2
    !! "Content-Type" = None
  /\ w_header (w (serve (Rev4.handleSummaryRequest Sample.W "g") Sample.r ∅).2)
       !! "Content-Type"
     = Some "application/json".
Proof.
  apply (summarize_content_type_set_late Sample.W "g" Sample.r ∅). reflexivity.
Defined.

(** From the environment to the providers: in a process that main of
    src/go.mod has brought to serve, every transcription request of
    every routed request carries the value of ASSEMBLY_API_KEY and every
    completion request the value of GROQ_API_KEY as bearer token, and
    neither is empty. *)
Theorem served_requests_carry_env_keys (W : World)
    (dotenv : error + gmap string string) (environ : gmap string string)
    (fault : option error) (addr : string) (patterns : list string) (keys : Keys)
    (pattern : string) (r : Request) (disk : gmap string string)
    (run : Completion unit unit * St) :
  (start (Boot4.main dotenv environ fault)).1 = Next (Serving addr patterns keys) ->
  dispatch W (Serving addr patterns keys) pattern r disk = Some run ->
  uses_keys (Getenv (loaded dotenv environ) "ASSEMBLY_API_KEY")
    (Getenv (loaded dotenv environ) "GROQ_API_KEY") (trace run.2)
  /\ Getenv (loaded dotenv environ) "ASSEMBLY_API_KEY" <> ""
  /\ Getenv (loaded dotenv environ) "GROQ_API_KEY" <> "".
Proof.
  rewrite main4_outcome. destruct (configured dotenv environ) eqn:C; [|discriminate].
  destruct fault; [discriminate|]. intros [= <- <- <-].
  destruct (configured_keys dotenv environ C) as (K1 & K2 & K3).
  unfold dispatch. destruct (existsb _ _); [|discriminate].
  destruct (Rev4.mux _ _ _ _) as [h|] eqn:M; [|discriminate].
  intros [= <-]. cbn [env_keys assemblyApiKey groqApiKey] in M.
  split; [|auto].
  apply mux_routes in M as [-> | ->].
  - apply (upload_paths_Rev4 W _ r disk).
  - apply (summarize_paths W _ r disk).
Qed.

Lemma served_requests_carry_env_keys_witness :
  uses_keys (Getenv (loaded (inr SampleFaults.dotenv) ∅) "ASSEMBLY_API_KEY")
    (Getenv (loaded (inr SampleFaults.dotenv) ∅) "GROQ_API_KEY")
    (trace (serve (Rev4.handleSummaryRequest Sample.W "gsk-key") Sample.r ∅).2)
  /\ Getenv (loaded (inr SampleFaults.dotenv) ∅) "ASSEMBLY_API_KEY" <> ""
  /\ Getenv (loaded (inr SampleFaults.dotenv) ∅) "GROQ_API_KEY" <> "".
Proof.
  apply (served_requests_carry_env_keys Sample.W (inr SampleFaults.dotenv) ∅ None
           "0.0.0.0:8080" ["POST /transcribe"; "POST /summarize"]
           (env_keys (loaded (inr SampleFaults.dotenv) ∅))
           "POST /summarize" Sample.r ∅
           (serve (Rev4.handleSummaryRequest Sample.W "gsk-key") Sample.r ∅));
    vm_compute; reflexivity.
Defined.

